(** * rentswatch-api: the city controller and the statistics it serves

    A shallow embedding of [server/api/city/city.controller.js]
    (index, search, ranking, geocode) and of the statistical engine
    behind [docs.center], [docs.getStats] and [docs.deciles].

    JavaScript numbers are IEEE doubles; here a finite number is a
    rational (every finite double is one), rounding and the sign of
    zero are not modelled. *)

From Stdlib Require Import ZArith QArith Reals Lra Lia Psatz Ascii String.
From Stdlib Require Import Sorting.Sorted Sorting.Permutation.
From stdpp Require Import base gmap strings list.

Local Set Warnings "-register-all".
Local Open Scope string_scope.
Local Open Scope list_scope.
Local Open Scope Z_scope.

(** ** JavaScript values as the controller uses them *)

Module JS.

(** A JS number: NaN, the two infinities, or a finite value. *)
Inductive number := NaN | NegInf | Fin (q : Q) | PosInf.

Definition num_isNaN (n : number) : bool :=
  match n with NaN => true | _ => false end.

Definition Qltb (x y : Q) : bool := negb (Qle_bool y x).

(** [a < b] on numbers: false as soon as one side is NaN. *)
Definition num_lt (a b : number) : bool :=
  match a, b with
  | NaN, _ | _, NaN => false
  | _, NegInf => false
  | NegInf, _ => true
  | PosInf, _ => false
  | _, PosInf => true
  | Fin x, Fin y => Qltb x y
  end.

(** [a === b] on numbers. *)
Definition num_strict_eq (a b : number) : bool :=
  match a, b with
  | NegInf, NegInf | PosInf, PosInf => true
  | Fin x, Fin y => Qeq_bool x y
  | _, _ => false
  end.

(** [a * b] on numbers. *)
Definition num_mul (a b : number) : number :=
  match a, b with
  | NaN, _ | _, NaN => NaN
  | Fin x, Fin y => Fin (x * y)
  | Fin x, PosInf | PosInf, Fin x =>
      match (x ?= 0)%Q with Eq => NaN | Gt => PosInf | Lt => NegInf end
  | Fin x, NegInf | NegInf, Fin x =>
      match (x ?= 0)%Q with Eq => NaN | Gt => NegInf | Lt => PosInf end
  | PosInf, PosInf | NegInf, NegInf => PosInf
  | PosInf, NegInf | NegInf, PosInf => NegInf
  end.

(** [Math.min(a, b)] on numbers. *)
Definition num_min (a b : number) : number :=
  match a, b with
  | NaN, _ | _, NaN => NaN
  | _, _ => if num_lt b a then b else a
  end.

(** The order on numbers as a proposition; NaN is related to nothing. *)
Definition num_le (a b : number) : Prop :=
  match a, b with
  | NaN, _ | _, NaN => False
  | NegInf, _ => True
  | _, PosInf => True
  | Fin x, Fin y => (x <= y)%Q
  | _, _ => False
  end.

(** [a] may stand before [b] in ascending order: a NaN goes last. *)
Definition ascending (a b : number) : Prop :=
  num_isNaN b = true \/ num_le a b.

(** [a] may stand before [b] in descending order: a NaN goes last. *)
Definition descending (a b : number) : Prop :=
  num_isNaN b = true \/ num_le b a.

(** Values found in a query string, in a city record or in a reply of
    the geocoder. Arrays and plain objects nested in a record are data
    the controller never updates in place, so they are kept as trees. *)
Inductive value :=
| VUndefined
| VNull
| VBool (b : bool)
| VNum (n : number)
| VStr (s : string)
| VArr (items : list value)
| VObj (props : list (string * value)).

(** ToBoolean. *)
Definition truthy (v : value) : bool :=
  match v with
  | VUndefined | VNull => false
  | VBool b => b
  | VNum NaN => false
  | VNum (Fin q) => negb (Qeq_bool q 0)
  | VNum _ => true
  | VStr s => negb (String.eqb s "")
  | VArr _ | VObj _ => true
  end.

(** [a || b]. *)
Definition js_or (a b : value) : value := if truthy a then a else b.

(** What the host provides: the conversions of the language that go
    through the text of a number. *)
Class Host := {
  (** ToNumber on a string (StringToNumber). *)
  StringToNumber : string -> number;
  (** ToNumber on an array or an object (through ToPrimitive). *)
  ObjectToNumber : value -> number;
}.

Section Conversions.
Context {host : Host}.

(** ToNumber. *)
Definition ToNumber (v : value) : number :=
  match v with
  | VUndefined => NaN
  | VNull => Fin 0
  | VBool b => if b then Fin 1 else Fin 0
  | VNum n => n
  | VStr s => StringToNumber s
  | VArr _ | VObj _ => ObjectToNumber v
  end.

(** The global [isNaN(v)]. *)
Definition isNaN (v : value) : bool := num_isNaN (ToNumber v).

(** [Number(v)]. *)
Definition Number (v : value) : value := VNum (ToNumber v).

(** [Math.min(a, b)]. *)
Definition Math_min (a b : value) : number := num_min (ToNumber a) (ToNumber b).

(** [a * b]. *)
Definition js_mul (a b : value) : number := num_mul (ToNumber a) (ToNumber b).

End Conversions.

(** *** Strings *)

Definition comma : ascii := ","%char.

(** [s.split(',')]: never the empty array. *)
Fixpoint split_comma (s : string) : list string :=
  match s with
  | EmptyString => [EmptyString]
  | String c rest =>
      if Ascii.eqb c comma then EmptyString :: split_comma rest
      else match split_comma rest with
           | piece :: pieces => String c piece :: pieces
           | [] => [String c EmptyString]
           end
  end.

(** White space in the ASCII range: tab, line feed, vertical tab, form
    feed, carriage return and space. *)
Definition is_space (c : ascii) : bool :=
  let n := nat_of_ascii c in
  ((9 <=? n)%nat && (n <=? 13)%nat) || (n =? 32)%nat.

Fixpoint trim_start (s : string) : string :=
  match s with
  | String c rest => if is_space c then trim_start rest else s
  | EmptyString => EmptyString
  end.

Fixpoint trim_end (s : string) : string :=
  match s with
  | EmptyString => EmptyString
  | String c rest =>
      match trim_end rest with
      | EmptyString => if is_space c then EmptyString else String c EmptyString
      | rest' => String c rest'
      end
  end.

(** [_.trim(s)]. *)
Definition trim (s : string) : string := trim_end (trim_start s).

(** *** Arrays *)

(** [array.slice(start, end)] with integer bounds; a negative bound
    counts from the end. *)
Definition slice {A} (start stop : Z) (l : list A) : list A :=
  let len := Z.of_nat (length l) in
  let k := if start <? 0 then Z.max (len + start) 0 else Z.min start len in
  let final := if stop <? 0 then Z.max (len + stop) 0 else Z.min stop len in
  take (Z.to_nat (final - k)) (drop (Z.to_nat k) l).

(** [array.sort(comparer)], as the stable insertion of each element
    into the sorted rest; [comparer x y > 0] moves [x] behind [y]. *)
Fixpoint array_insert {A} (comparer : A -> A -> Z) (x : A) (l : list A) : list A :=
  match l with
  | [] => [x]
  | y :: rest =>
      if 0 <? comparer x y then y :: array_insert comparer x rest
      else x :: y :: rest
  end.

Fixpoint array_sort {A} (comparer : A -> A -> Z) (l : list A) : list A :=
  match l with
  | [] => []
  | x :: rest => array_insert comparer x (array_sort comparer rest)
  end.

(** *** lodash *)

(** lodash's [compareAscending] on two numbers (the criteria of
    [ranking] are products, hence numbers): a NaN goes last. *)
Definition compareAscending (v other : number) : Z :=
  if num_strict_eq v other then 0
  else if num_lt other v || num_isNaN v then 1
  else if num_lt v other || num_isNaN other then -1
  else 0.

Record SortEntry (A : Type) := mkEntry {
  criteria : number;
  entry_index : nat;
  entry_value : A;
}.
Arguments mkEntry {A} _ _ _.
Arguments criteria {A} _.
Arguments entry_index {A} _.
Arguments entry_value {A} _.

Definition entries_ascending {A} (x y : SortEntry A) : Prop :=
  ascending (criteria x) (criteria y).

(** The comparer of [_.sortBy]: the criteria, then the position. *)
Definition compareEntries {A} (object other : SortEntry A) : Z :=
  let c := compareAscending (criteria object) (criteria other) in
  if c =? 0 then Z.of_nat (entry_index object) - Z.of_nat (entry_index other) else c.

(** [_.sortBy(collection, iteratee)]. *)
Definition sortBy {A} (iteratee : A -> number) (collection : list A) : list A :=
  let result := imap (fun i v => mkEntry (iteratee v) i v) collection in
  map entry_value (array_sort compareEntries result).

End JS.

(** ** The conversions of the host, for running the handlers *)

Module Node.
Import JS.

(** The value of a digit in the given base. *)
Definition digit (base : Z) (c : ascii) : option Z :=
  let n := Z.of_nat (nat_of_ascii c) in
  let d := if (48 <=? n) && (n <=? 57) then n - 48
           else if (97 <=? n) && (n <=? 102) then n - 87
           else if (65 <=? n) && (n <=? 70) then n - 55
           else base in
  if d <? base then Some d else None.

(** The longest run of digits at the start of [s]: its value, its
    length and the rest of the text. *)
Fixpoint digits (base : Z) (s : string) (acc : Z) (n : nat) : Z * nat * string :=
  match s with
  | String c rest =>
      match digit base c with
      | Some d => digits base rest (acc * base + d) (S n)
      | None => (acc, n, s)
      end
  | EmptyString => (acc, n, s)
  end.

(** The text after the [e] of an exponent. *)
Definition exponent (s : string) : option Z :=
  let '(sign, s1) :=
    match s with
    | String "+"%char r => (1, r)
    | String "-"%char r => (-1, r)
    | _ => (1, s)
    end in
  match digits 10 s1 0 0 with
  | (v, S _, EmptyString) => Some (sign * v)
  | _ => None
  end.

(** StrUnsignedDecimalLiteral. *)
Definition unsigned_decimal (s : string) : number :=
  if String.eqb s "Infinity" then PosInf else
  let '(i, ni, s1) := digits 10 s 0 0 in
  let '(f, nf, s2) :=
    match s1 with
    | String "."%char r => digits 10 r 0 0
    | _ => (0, 0%nat, s1)
    end in
  if (ni + nf =? 0)%nat then NaN else
  let mantissa := (inject_Z (i * 10 ^ Z.of_nat nf + f) / inject_Z (10 ^ Z.of_nat nf))%Q in
  match s2 with
  | EmptyString => Fin (Qred mantissa)
  | String c r =>
      if Ascii.eqb c "e"%char || Ascii.eqb c "E"%char then
        match exponent r with
        | Some e => Fin (Qred (mantissa * Qpower (inject_Z 10) e))
        | None => NaN
        end
      else NaN
  end.

(** Hexadecimal, octal and binary integer literals. *)
Definition radix_literal (base : Z) (s : string) : number :=
  match digits base s 0 0 with
  | (v, S _, EmptyString) => Fin (inject_Z v)
  | _ => NaN
  end.

Definition num_neg (n : number) : number :=
  match n with
  | NaN => NaN
  | NegInf => PosInf
  | PosInf => NegInf
  | Fin q => Fin (Qred (- q))
  end.

(** StringToNumber: white space around a numeric literal, the empty
    text being 0. *)
Definition string_to_number (s : string) : number :=
  match trim s with
  | EmptyString => Fin 0
  | String "+"%char r => unsigned_decimal r
  | String "-"%char r => num_neg (unsigned_decimal r)
  | String "0"%char (String "x"%char r) | String "0"%char (String "X"%char r) =>
      radix_literal 16 r
  | String "0"%char (String "o"%char r) | String "0"%char (String "O"%char r) =>
      radix_literal 8 r
  | String "0"%char (String "b"%char r) | String "0"%char (String "B"%char r) =>
      radix_literal 2 r
  | t => unsigned_decimal t
  end.

(** ToNumber on an array or an object: the number read from its text.
    An array of one element has the text of that element, a longer one
    has a comma in its text, a plain object reads [object Object]. *)
Fixpoint object_to_number (v : value) : number :=
  match v with
  | VArr [] => Fin 0
  | VArr [x] =>
      match x with
      | VUndefined | VNull => Fin 0
      | VNum n => n
      | VStr s => string_to_number s
      | VArr _ => object_to_number x
      | VBool _ | VObj _ => NaN
      end
  | _ => NaN
  end.

#[export] Instance node : Host := {|
  StringToNumber := string_to_number;
  ObjectToNumber := object_to_number;
|}.

End Node.

(** ** The city controller *)

Module City.
Import JS.

(** A JS object used as a record: property name to value. *)
Abbreviation obj := (gmap string value).

(** [o[k]]: a missing property reads as [undefined]. *)
Definition get (o : obj) (k : string) : value := default VUndefined (o !! k).

(** [_.extend(target, source)]: the properties of [source] win. *)
Definition extend (target source : obj) : obj := source ∪ target.

(** [req.query]: the parameters of the query string, each a string. *)
Abbreviation query := (gmap string string).

(** [req.query[k]]. *)
Definition param (req : query) (k : string) : value :=
  match req !! k with Some s => VStr s | None => VUndefined end.

(** The text of a value that is a string. *)
Definition text_of (v : value) : string :=
  match v with VStr s => s | _ => "" end.

(** The objects of the process live in a heap; the collection
    [cities] holds references to the stored city records. *)
Abbreviation loc := positive.
Abbreviation heap := (gmap loc obj).

Definition deref (h : heap) (l : loc) : obj := default ∅ (h !! l).

(** What a handler sends back; [Thrown] stands for a handler that
    throws outside of any promise: nothing is sent. *)
Inductive body :=
| BObject (o : obj)
| BList (l : list obj)
| BPairs (l : list (value * value)).

Inductive response :=
| Send (status : nat) (b : body)
| HandleError (status : nat) (err : value)
| ValidationError (err : obj)
| Thrown (err : value).

(** The objects of an answer that is a list, and what an object holds
    under the properties that [index] and [search] take off. *)
Definition sent_objects (resp : response) : list obj :=
  match resp with
  | Send _ (BList l) => l
  | _ => []
  end.

Definition excluded_view (o : obj) : value * option value * option value * option value :=
  (get o "name", o !! "months", o !! "neighborhoods", o !! "deciles").

(** The helpers of the repository and of its packages that this unit
    only calls. *)
Record Page := mkPage { offset : Z; limit : Z }.

Class Helpers := {
  (** [paginator.offset(req)]: the offset and the page size. *)
  paginator_offset : query -> Page;
  (** [slug(text)] of the slug package. *)
  slug : value -> string;
  (** [fuzzy.test(pattern, text)] of the fuzzy package. *)
  fuzzy_test : string -> string -> bool;
}.

Definition INDEX_EXCLUDE : list string := ["months"; "neighborhoods"; "deciles"].

(** *** Handlers that read and write the heap *)

Definition M (A : Type) : Type := heap -> A * heap.

Definition ret {A} (a : A) : M A := fun h => (a, h).

Definition bind {A B} (m : M A) (f : A -> M B) : M B :=
  fun h => let (a, h') := m h in f a h'.

Notation "'let*' x ':=' m 'in' k" := (bind m (fun x => k))
  (at level 10, x name, m at level 200, k at level 200).
Notation "'do' m 'in' k" := (bind m (fun _ => k))
  (at level 10, m at level 200, k at level 200).

Definition read_heap : M heap := fun h => (h, h).

(** [_.cloneDeep(city)]: a new object with the properties of [city]. *)
Definition cloneDeep (city : loc) : M loc :=
  fun h => let l := fresh (dom h) in (l, <[l := deref h city]> h).

(** [delete city[k]]. *)
Definition delete_property (city : loc) (k : string) : M unit :=
  fun h => (tt, alter (delete k) city h).

(** [keys.forEach(f)]. *)
Fixpoint forEach {A} (l : list A) (f : A -> M unit) : M unit :=
  match l with
  | [] => ret tt
  | x :: rest => do f x in forEach rest f
  end.

(** [_.map(list, f)], left to right. *)
Fixpoint map_M {A B} (f : A -> M B) (l : list A) : M (list B) :=
  match l with
  | [] => ret []
  | x :: rest => let* y := f x in let* ys := map_M f rest in ret (y :: ys)
  end.

(** The function given to [_.map] by [index] and by [search]. *)
Definition without_excluded (city : loc) : M loc :=
  let* city' := cloneDeep city in
  do forEach INDEX_EXCLUDE (fun k => delete_property city' k) in
  ret city'.

(** [res.status(200).json(list)]: the objects as they are now. *)
Definition json_list (l : list loc) : M response :=
  let* h := read_heap in ret (Send 200 (BList (map (deref h) l))).

Section Handlers.
Context {host : Host} {helpers : Helpers}.

(** [exports.index]. *)
Definition index (req : query) (cities : list loc) : M response :=
  let params := paginator_offset req in
  let* h := read_heap in
  let list := cities in
  let list :=
    if truthy (VNum (js_mul (VNum (Fin 1)) (param req "has_neighborhoods")))
    then List.filter (fun item => truthy (get (deref h item) "neighborhoods")) list
    else list in
  let list := slice (offset params) (offset params + limit params) list in
  let* sent := map_M without_excluded list in
  json_list sent.

(** [exports.search]. *)
Definition search (req : query) (cities : list loc) : M response :=
  let params := paginator_offset req in
  let q := slug (js_or (param req "q") (VStr "")) in
  if negb (truthy (VStr q)) || (Z.of_nat (String.length q) <? 1) then
    ret (ValidationError
           {[ "error" := VStr "'q' parameter must not be empty." ]})
  else
    let* h := read_heap in
    let filtered :=
      List.filter (fun item =>
        if truthy (VNum (js_mul (VNum (Fin 1)) (param req "has_neighborhoods")))
           && negb (truthy (get (deref h item) "neighborhoods"))
        then false
        else fuzzy_test q (slug (js_or (get (deref h item) "name") (VStr "")))) cities in
    let filtered := slice (offset params) (offset params + limit params) filtered in
    let* sent := map_M without_excluded filtered in
    json_list sent.

(** [array.indexOf(x)] on an array of strings. *)
Fixpoint indexOf (l : list string) (x : value) : Z :=
  match l with
  | [] => -1
  | s :: rest =>
      match x with
      | VStr s' => if String.eqb s s' then 0
                   else let i := indexOf rest x in if i <? 0 then -1 else i + 1
      | _ => -1
      end
  end.

Definition indicators : list string := ["avgPricePerSqm"; "total"; "inequalityIndex"].

(** The indicator [ranking] sorts by. *)
Definition chosen_indicator (req : query) : string :=
  if -1 <? indexOf indicators (param req "indicator")
  then text_of (param req "indicator")
  else "avgPricePerSqm".

(** The chain of [ranking] on the records of the collection. *)
Definition ranking_chain (indicator : string) (records : list obj) : list (value * value) :=
  map (fun c => (get c "name", get c indicator))
    (sortBy (fun c => js_mul (VNum (Fin (-1))) (get c indicator))
       (List.filter (fun c => truthy (get c "ranked")) records)).

(** [exports.ranking]. *)
Definition ranking (req : query) (cities : list loc) : M response :=
  let* h := read_heap in
  let indicator := chosen_indicator req in
  ret (Send 200 (BPairs (ranking_chain indicator (map (deref h) cities)))).

End Handlers.

(** *** geocode: a program that calls the geocoder and the doc model *)

(** How a promise settles. *)
Inductive outcome (A : Type) :=
| Rejected (err : value)
| Resolved (a : A).
Arguments Rejected {A} _.
Arguments Resolved {A} _.

(** The arguments of [docs.center], in the order of the call. *)
Record CenterArgs := mkCenterArgs {
  arg_latitude : value;
  arg_longitude : value;
  arg_radius : value;
  arg_minLivingSpace : value;
  arg_maxLivingSpace : value;
  arg_noRooms : value;
  arg_limit : value;
}.

(** What the callback of [request] receives: [err] and [body] (it
    does not read [resp]). With [json: true] the body is the parsed
    JSON, the text when it does not parse, and [undefined] when the
    request failed or the answer was empty. *)
Record Reply := mkReply {
  reply_err : value;
  reply_body : value;
}.

(** The property [k] of an object kept as a tree, [undefined] when it
    has none. *)
Definition prop (props : list (string * value)) (k : string) : value :=
  match List.find (fun p => String.eqb (fst p) k) props with
  | Some p => snd p
  | None => VUndefined
  end.

(** [undefined] and [null]: reading a property of either throws a
    TypeError. *)
Definition nullish (v : value) : bool :=
  match v with
  | VUndefined | VNull => true
  | _ => false
  end.

Definition type_error : value := VStr "TypeError".

(** Whether [body.length] is truthy, for a [body] that is not nullish:
    the number of items of an array, the number of characters of a
    string, the property of an object, [undefined] otherwise. *)
Definition length_truthy (body : value) : bool :=
  match body with
  | VArr items => negb (length items =? 0)%nat
  | VStr s => negb (String.length s =? 0)%nat
  | VObj props => truthy (prop props "length")
  | _ => false
  end.

(** Whether [body.push] is truthy, for a [body] that is not nullish:
    the method of an array, the property of an object, [undefined]
    otherwise. *)
Definition push_truthy (body : value) : bool :=
  match body with
  | VArr _ => true
  | VObj props => truthy (prop props "push")
  | _ => false
  end.

(** [body[0]], for a [body] that is not nullish. *)
Definition first_of (body : value) : value :=
  match body with
  | VArr items => nth 0 items VUndefined
  | VStr (String c _) => VStr (String c EmptyString)
  | VObj props => prop props "0"
  | _ => VUndefined
  end.

(** [first[k]] for a [first] that is not nullish and a [k] that names
    no property of arrays, strings, numbers or booleans ([lat], [lon],
    [display_name] and [type] are such). *)
Definition field (first : value) (k : string) : value :=
  match first with
  | VObj props => prop props k
  | _ => VUndefined
  end.

Section Geocode.
Context {host : Host} {Rows : Type}.

(** The calls [geocode] makes, each with the function that receives
    the answer. A throw of [docs.getStats] is caught by the [fail] of
    the enclosing promise, hence an outcome too. *)
Inductive Prog (R : Type) : Type :=
| Return (r : R)
| Request (q : string) (callback : Reply -> Prog R)
| DocsCenter (args : CenterArgs) (callback : outcome Rows -> Prog R)
| DocsGetStats (rows : Rows) (radius flag : value) (callback : outcome obj -> Prog R)
| DocsDeciles (rows : Rows) (callback : outcome value -> Prog R).
Arguments Return {R} _.
Arguments Request {R} _ _.
Arguments DocsCenter {R} _ _.
Arguments DocsGetStats {R} _ _ _ _.
Arguments DocsDeciles {R} _ _.

(** [_(s.split(',')).map(_.trim).map(Number).reject(isNaN).value()]. *)
Definition numbers_of (s : string) : list value :=
  List.filter (fun v => negb (isNaN v))
    (map Number (map (fun piece => VStr (trim piece)) (split_comma s))).

(** [array[i]]. *)
Definition item (l : list value) (i : nat) : value := nth i l VUndefined.

(** The closure [sendCenter] of [geocode]. *)
Definition sendCenter (req : query) (radius : number)
    (minLivingSpace maxLivingSpace noRooms : value) (place : obj) : Prog response :=
  DocsCenter
    (mkCenterArgs (get place "latitude") (get place "longitude") (get place "radius")
       minLivingSpace maxLivingSpace noRooms (param req "limit"))
    (fun r =>
       match r with
       | Rejected err => Return (HandleError 500 err)
       | Resolved rows =>
           DocsGetStats rows (VNum radius) (VBool true)
             (fun s =>
                match s with
                | Rejected err => Return (HandleError 500 err)
                | Resolved stats =>
                    let place := extend place stats in
                    DocsDeciles rows
                      (fun d =>
                         match d with
                         | Rejected err => Return (HandleError 500 err)
                         | Resolved deciles =>
                             let place := <["deciles" := deciles]> place in
                             Return (Send 200 (BObject place))
                         end)
                end)
       end).

(** The validation steps of [geocode], one per parameter. *)
Definition valid_radius (req : query) : number :=
  let radius := js_or (param req "radius") (VNum (Fin 20)) in
  let radius := if isNaN radius then VNum (Fin 20) else radius in
  Math_min radius (VNum (Fin 20)).

Definition valid_minLivingSpace (req : query) : value :=
  let minLivingSpace := js_or (param req "min_living_space") (VNum (Fin 0)) in
  if isNaN minLivingSpace then VNum (Fin 0) else minLivingSpace.

Definition valid_maxLivingSpace (req : query) : value :=
  let maxLivingSpace := js_or (param req "max_living_space") (VNum (Fin 200)) in
  if isNaN maxLivingSpace then VNum (Fin 200) else maxLivingSpace.

Definition valid_noRooms (req : query) : value :=
  if truthy (param req "no_rooms")
  then VArr (numbers_of (text_of (param req "no_rooms")))
  else VNull.

(** The place when the query holds the coordinates. *)
Definition place_of_coordinates (radius : number) (latlng : list value) : obj :=
  extend {[ "radius" := VNum radius ]}
    (<["latitude" := VNum (js_mul (item latlng 0) (VNum (Fin 1)))]>
     (<["longitude" := VNum (js_mul (item latlng 1) (VNum (Fin 1)))]>
      (<["name" := VStr "unkown"]>
       (<["type" := VStr "unkown"]>
        {[ "deciles" := VArr [] ]})))).

(** The place made of the first answer of the geocoder. *)
Definition place_of_answer (radius : number) (first : value) : obj :=
  extend {[ "radius" := VNum radius ]}
    (<["latitude" := VNum (js_mul (field first "lat") (VNum (Fin 1)))]>
     (<["longitude" := VNum (js_mul (field first "lon") (VNum (Fin 1)))]>
      (<["name" := field first "display_name"]>
       (<["type" := field first "type"]>
        {[ "deciles" := VArr [] ]})))).

(** [exports.geocode]. The callback of [request] runs outside of any
    promise: when [err] is falsy and [body] is [undefined] or [null],
    [body.length] throws, and so does [body[0].lat] when [body[0]] is;
    the handler then sends nothing. *)
Definition geocode (req : query) : Prog response :=
  if negb (truthy (param req "q")) then
    Return (HandleError 400 (VStr "Missing 'q' parameter."))
  else
    let radius := valid_radius req in
    let minLivingSpace := valid_minLivingSpace req in
    let maxLivingSpace := valid_maxLivingSpace req in
    let noRooms := valid_noRooms req in
    let latlng := numbers_of (text_of (param req "q")) in
    if (length latlng =? 2)%nat then
      sendCenter req radius minLivingSpace maxLivingSpace noRooms
        (place_of_coordinates radius latlng)
    else
      Request (text_of (param req "q"))
        (fun reply =>
           let err := reply_err reply in
           let body := reply_body reply in
           if truthy err then
             Return (HandleError 404 (VStr "Not found"))
           else if nullish body then
             Return (Thrown type_error)
           else if length_truthy body && push_truthy body then
             if nullish (first_of body) then
               Return (Thrown type_error)
             else
               sendCenter req radius minLivingSpace maxLivingSpace noRooms
                 (place_of_answer radius (first_of body))
           else
             Return (HandleError 404 (VStr "Not found"))).

(** The geocoder and the doc model as seen from the controller: each
    call answers from the current state of the world and may change
    it (the listings are reloaded from time to time). *)
Record World (S : Type) := mkWorld {
  request : string -> S -> Reply * S;
  docs_center : CenterArgs -> S -> outcome Rows * S;
  docs_getStats : Rows -> value -> value -> S -> outcome obj * S;
  docs_deciles : Rows -> S -> outcome value * S;
}.
Arguments request {S} _ _ _.
Arguments docs_center {S} _ _ _.
Arguments docs_getStats {S} _ _ _ _ _.
Arguments docs_deciles {S} _ _ _.

(** A call that was made, with its answer. *)
Inductive call :=
| CallRequest (q : string) (reply : Reply)
| CallCenter (args : CenterArgs) (result : outcome Rows)
| CallGetStats (rows : Rows) (radius flag : value) (result : outcome obj)
| CallDeciles (rows : Rows) (result : outcome value).

(** Running a program in a world: the calls in order, and the result. *)
Fixpoint run {S R} (w : World S) (p : Prog R) (s : S) : list call * R :=
  match p with
  | Return r => ([], r)
  | Request q k =>
      let (a, s') := request w q s in
      let (log, r) := run w (k a) s' in (CallRequest q a :: log, r)
  | DocsCenter args k =>
      let (a, s') := docs_center w args s in
      let (log, r) := run w (k a) s' in (CallCenter args a :: log, r)
  | DocsGetStats rows radius flag k =>
      let (a, s') := docs_getStats w rows radius flag s in
      let (log, r) := run w (k a) s' in (CallGetStats rows radius flag a :: log, r)
  | DocsDeciles rows k =>
      let (a, s') := docs_deciles w rows s in
      let (log, r) := run w (k a) s' in (CallDeciles rows a :: log, r)
  end.

(** The calls of [docs.center] in a log, with their arguments. *)
Definition center_calls (log : list call) : list CenterArgs :=
  omap (fun c => match c with CallCenter args _ => Some args | _ => None end) log.

(** The arguments [sendCenter] gives to [docs.center] for a place. *)
Definition center_args (req : query) (place : obj) : CenterArgs :=
  mkCenterArgs (get place "latitude") (get place "longitude") (get place "radius")
    (valid_minLivingSpace req) (valid_maxLivingSpace req) (valid_noRooms req)
    (param req "limit").

(** The four ways [sendCenter] can go for a place: the calls made and
    the answer sent. *)
Inductive served (req : query) (place : obj) : list call -> response -> Prop :=
| served_no_rows err :
    served req place
      [CallCenter (center_args req place) (Rejected err)]
      (HandleError 500 err)
| served_no_stats rows err :
    served req place
      [CallCenter (center_args req place) (Resolved rows);
       CallGetStats rows (VNum (valid_radius req)) (VBool true) (Rejected err)]
      (HandleError 500 err)
| served_no_deciles rows stats err :
    served req place
      [CallCenter (center_args req place) (Resolved rows);
       CallGetStats rows (VNum (valid_radius req)) (VBool true) (Resolved stats);
       CallDeciles rows (Rejected err)]
      (HandleError 500 err)
| served_stats rows stats deciles :
    served req place
      [CallCenter (center_args req place) (Resolved rows);
       CallGetStats rows (VNum (valid_radius req)) (VBool true) (Resolved stats);
       CallDeciles rows (Resolved deciles)]
      (Send 200 (BObject (<["deciles" := deciles]> (extend place stats)))).

(** Whether the callback of [request] goes on to [sendCenter]: no
    error, and a body with a truthy [length] and a truthy [push]. *)
Definition has_places (reply : Reply) : bool :=
  negb (truthy (reply_err reply))
  && negb (nullish (reply_body reply))
  && length_truthy (reply_body reply) && push_truthy (reply_body reply).

(** Whether the callback of [request] throws: no error and a body that
    is nullish, or places of which the first is nullish. *)
Definition callback_throws (reply : Reply) : bool :=
  negb (truthy (reply_err reply))
  && (nullish (reply_body reply)
      || (length_truthy (reply_body reply) && push_truthy (reply_body reply)
          && nullish (first_of (reply_body reply)))).

(** The ways [geocode] can go: without [q], with coordinates in [q],
    with a text the geocoder does not find, with a reply on which the
    callback throws, with a text the geocoder finds. *)
Inductive geocoded (req : query) : list call -> response -> Prop :=
| geocoded_missing :
    truthy (param req "q") = false ->
    geocoded req [] (HandleError 400 (VStr "Missing 'q' parameter."))
| geocoded_coordinates log resp :
    truthy (param req "q") = true ->
    served req
      (place_of_coordinates (valid_radius req) (numbers_of (text_of (param req "q"))))
      log resp ->
    geocoded req log resp
| geocoded_not_found reply :
    truthy (param req "q") = true ->
    has_places reply = false ->
    callback_throws reply = false ->
    geocoded req
      [CallRequest (text_of (param req "q")) reply]
      (HandleError 404 (VStr "Not found"))
| geocoded_thrown reply :
    truthy (param req "q") = true ->
    callback_throws reply = true ->
    geocoded req
      [CallRequest (text_of (param req "q")) reply]
      (Thrown type_error)
| geocoded_found reply log resp :
    truthy (param req "q") = true ->
    has_places reply = true ->
    callback_throws reply = false ->
    served req (place_of_answer (valid_radius req) (first_of (reply_body reply))) log resp ->
    geocoded req
      (CallRequest (text_of (param req "q")) reply :: log)
      resp.

(** An answer that is not the statistics of a place. *)
Definition is_error (resp : response) : bool :=
  match resp with
  | Send _ _ => false
  | HandleError _ _ | ValidationError _ | Thrown _ => true
  end.

(** An answer that turns the query down as invalid. *)
Definition is_rejection (resp : response) : bool :=
  match resp with
  | HandleError 400 _ | ValidationError _ => true
  | _ => false
  end.

(** A room filter with a piece that does not read as a number. *)
Definition unparsable_rooms (s : string) : bool :=
  existsb (fun piece => isNaN (Number (VStr (trim piece)))) (split_comma s).

End Geocode.

Arguments Return {Rows R} _.
Arguments Request {Rows R} _ _.
Arguments DocsCenter {Rows R} _ _.
Arguments DocsGetStats {Rows R} _ _ _ _.
Arguments DocsDeciles {Rows R} _ _.
Arguments mkWorld {Rows S} _ _ _ _.
Arguments request {Rows S} _ _ _.
Arguments docs_center {Rows S} _ _ _.
Arguments docs_getStats {Rows S} _ _ _ _ _.
Arguments docs_deciles {Rows S} _ _ _.
Arguments Prog : clear implicits.
Arguments World : clear implicits.
Arguments call : clear implicits.

(** *** show, and what the handlers send *)

(** A record after [delete record[k]] for each [k] of [keys], in that
    order. *)
Definition without_keys (keys : list string) (o : obj) : obj :=
  foldl (fun o k => delete k o) o keys.

(** The function given to [_.map] for any list of excluded
    properties: a deep clone, then the deletions on the clone. *)
Definition clone_without (keys : list string) (city : loc) : M loc :=
  let* city' := cloneDeep city in
  do forEach keys (fun k => delete_property city' k) in
  ret city'.

(** [_.extend(city, stats)] on the object at [city], in place. *)
Definition extend_in_place (city : loc) (stats : obj) : M unit :=
  fun h => (tt, alter (fun o => extend o stats) city h).

(** [env === 'development']. *)
Definition is_development (env : value) : bool :=
  match env with
  | VStr s => String.eqb s "development"
  | _ => false
  end.

(** The collection of the repository, which this unit only calls:
    [cities.get({ name: name })] reads the heap and finds a stored
    city or nothing. *)
Class Collection := {
  collection_get : list loc -> heap -> value -> option loc;
}.

(** The error a call of the doc model was rejected with, if it was. *)
Definition rejection {Rows : Type} (c : call Rows) : option value :=
  match c with
  | CallCenter _ (Rejected err)
  | CallGetStats _ _ _ (Rejected err)
  | CallDeciles _ (Rejected err) => Some err
  | _ => None
  end.

(** Whether a call went to the geocoder. *)
Definition is_request {Rows : Type} (c : call Rows) : bool :=
  match c with CallRequest _ _ => true | _ => false end.

Section Show.
Context {collection : Collection}.

(** [exports.show]; [env] is [req.app.get('env')], [name] is
    [req.params.name] and [getStats] is the method of the city found.
    The answer comes with the cities whose statistics were asked
    for. *)
Definition show (env name : value) (req : query) (cities : list loc)
    (getStats : loc -> M (outcome obj)) : M (list loc * response) :=
  let* h := read_heap in
  match collection_get cities h name with
  | Some city =>
      if truthy (param req "sync") && is_development env then
        let* settled := getStats city in
        match settled with
        | Resolved stats =>
            let* city' := cloneDeep city in
            do extend_in_place city' stats in
            let* h' := read_heap in
            ret ([city], Send 200 (BObject (deref h' city')))
        | Rejected err => ret ([city], HandleError 500 err)
        end
      else ret ([], Send 200 (BObject (deref h city)))
  | None => ret ([], HandleError 404 (VStr "Not found"))
  end.

End Show.

End City.

(** ** The controller as it was before the query parameters

    [server/api/city/city.controller.js]: the list without the filter
    on neighbourhoods, and statistics around one fixed point. *)

Module Legacy.
Import JS City.

Definition INDEX_EXCLUDE : list string := ["months"; "neighborhoods"].

(** [exports.index]. *)
Definition index {helpers : Helpers} (req : query) (cities : list loc) : M response :=
  let params := paginator_offset req in
  let list := slice (offset params) (offset params + limit params) cities in
  let* sent := map_M (clone_without INDEX_EXCLUDE) list in
  json_list sent.

(** [exports.show]. *)
Definition show {collection : Collection} (name : value) (cities : list loc) : M response :=
  let* h := read_heap in
  match collection_get cities h name with
  | Some city => ret (Send 200 (BObject (deref h city)))
  | None => ret (HandleError 404 (VStr "Not found"))
  end.

(** The arguments of [docs.center(52.52437, 13.41053, 20)]; the
    arguments that are not given are [undefined]. *)
Definition fixed_center : CenterArgs :=
  mkCenterArgs (VNum (Fin (5252437 # 100000))) (VNum (Fin (1341053 # 100000)))
    (VNum (Fin 20)) VUndefined VUndefined VUndefined VUndefined.

(** [exports.geocode]. *)
Definition geocode {Rows : Type} (req : query) : Prog Rows response :=
  let place := VObj [("q", param req "q"); ("radius", param req "radius")] in
  if truthy place then
    DocsCenter fixed_center
      (fun r =>
         match r with
         | Rejected err => Return (HandleError 500 err)
         | Resolved rows =>
             DocsGetStats rows VUndefined VUndefined
               (fun s =>
                  match s with
                  | Rejected err => Return (HandleError 500 err)
                  | Resolved stats => Return (Send 200 (BObject stats))
                  end)
         end)
  else Return (HandleError 404 (VStr "Not found")).

End Legacy.

(** ** The doc model: selection, regression and deciles

    [server/api/doc/doc.model.js] is not part of this unit; its three
    operations are modelled from the specification, over the real
    numbers. *)

Module Docs.
Local Open Scope R_scope.

#[export] Instance Rle_decision (x y : R) : Decision (x <= y) := Rle_dec x y.
#[export] Instance Req_decision : EqDecision R := Req_dec_T.

(** Modelled from the spec: a Listing of the data model (section 3);
    the room count and the neighbourhood may be unknown. *)
Record Listing := mkListing {
  latitude : R;
  longitude : R;
  livingSpace : R;
  totalRent : R;
  rooms : option nat;
  neighborhood : option string;
}.

(** Modelled from the spec: a Region Query (section 3). *)
Record RegionQuery := mkRegionQuery {
  center_latitude : R;
  center_longitude : R;
  radiusKm : R;
  minLivingSpace : R;
  maxLivingSpace : R;
  room_set : option (list nat);
  limit : option nat;
}.

Section GeoFilter.
(** The radius of the Earth in kilometres, which the specification
    leaves to the implementation. *)
Variable earth_radius_km : R.

(** Modelled from the spec: coordinates are decimal degrees
    (section 3). *)
Definition radians (degrees : R) : R := degrees * PI / 180.

(** Modelled from the spec: the haversine (great-circle) distance of
    section 4.1, which [docs.center] has to use. *)
Definition haversine (lat1 lng1 lat2 lng2 : R) : R :=
  let dlat := radians (lat2 - lat1) in
  let dlng := radians (lng2 - lng1) in
  let a := (sin (dlat / 2))² + cos (radians lat1) * cos (radians lat2) * (sin (dlng / 2))² in
  2 * earth_radius_km * asin (sqrt a).

(** Modelled from the spec: the distance from the centre of the
    query to a listing (section 4.1). *)
Definition distance (q : RegionQuery) (l : Listing) : R :=
  haversine (center_latitude q) (center_longitude q) (latitude l) (longitude l).



(** Modelled from the spec: the conditions of section 4.1 for a
    listing to be selected, as the specification words them. *)
Definition eligible (q : RegionQuery) (l : Listing) : Prop :=
  distance q l <= radiusKm q
  /\ minLivingSpace q <= livingSpace l <= maxLivingSpace q
  /\ match room_set q with
     | None => True
     | Some wanted => exists r, rooms l = Some r /\ r ∈ wanted
     end.

(** Whether a listing meets the conditions can be decided. *)
#[export] Instance eligible_decision (q : RegionQuery) (l : Listing) :
  Decision (eligible q l).
Proof.
  unfold eligible. destruct (room_set q) as [wanted|]; [|apply _].
  apply and_dec; [apply _|]. apply and_dec; [apply _|].
  destruct (rooms l) as [r|].
  - destruct (decide (r ∈ wanted)) as [Hin|Hout].
    + left. by exists r.
    + right. intros (r' & Hr & Hin). by injection Hr as <-.
  - right. by intros (r & Hr & _).
Defined.


End GeoFilter.


(** *** Regression statistics *)

Definition sum (l : list R) : R := fold_right Rplus 0 l.

Definition mean (l : list R) : R := sum l / INR (length l).

(** Modelled from the spec: the squared error of the line
    [rent = a * space + b] of section 4.2 on a selection. *)
Definition squared_error (sel : list Listing) (a b : R) : R :=
  sum (map (fun l => (totalRent l - (a * livingSpace l + b))²) sel).

(** Modelled from the spec: the result of [compute] (sections 4.2 and
    7): either the distinguished condition, or the indicators. *)
Inductive StatsResult :=
| InsufficientData (total : nat)
| Stats (total : nat) (avgPricePerSqm stdErr : R).

(** Modelled from the spec: the sum of the squared deviations of the
    living space from its mean (section 4.2); zero when the
    independent variable has no variance. *)
Definition space_deviation (sel : list Listing) : R :=
  let mx := mean (map livingSpace sel) in
  sum (map (fun l => (livingSpace l - mx)²) sel).

(** Modelled from the spec: the least-squares line of section 4.2,
    through the means, with the slope of the rent on the living
    space. *)
Definition covariation (sel : list Listing) : R :=
  let mx := mean (map livingSpace sel) in
  let my := mean (map totalRent sel) in
  sum (map (fun l => (livingSpace l - mx) * (totalRent l - my)) sel).

Definition slope (sel : list Listing) : R := covariation sel / space_deviation sel.

Definition intercept (sel : list Listing) : R :=
  mean (map totalRent sel) - slope sel * mean (map livingSpace sel).

(** Modelled from the spec: [compute] of section 4.2, the operation of
    [docs.getStats]: the slope of the regression of the rent on the
    living space, the standard error of that slope (the residual
    standard deviation over the root of the squared deviations of the
    living space), and the insufficient-data condition for fewer than
    two listings or no variance in the living space. The inequality
    index is left out: the specification does not say which standard
    deviation it is. *)
Definition compute (sel : list Listing) : StatsResult :=
  let n := length sel in
  if (n <? 2)%nat then InsufficientData n
  else if decide (space_deviation sel = 0) then InsufficientData n
  else
    let residual := sqrt (squared_error sel (slope sel) (intercept sel) / INR (n - 2)) in
    Stats n (slope sel) (residual / sqrt (space_deviation sel)).

(** *** Deciles *)

(** Modelled from the spec: the price per area of one listing
    (section 4.3). *)
Definition price_per_area (l : Listing) : R := totalRent l / livingSpace l.

(** Modelled from the spec: sorting the values ascending
    (section 4.3). *)
Fixpoint insert_ascending (x : R) (l : list R) : list R :=
  match l with
  | [] => [x]
  | y :: rest => if decide (x <= y) then x :: l else y :: insert_ascending x rest
  end.

Definition sort_ascending (l : list R) : list R := fold_right insert_ascending [] l.

(** Modelled from the spec: the boundary of decile [k] in the sorted
    values [s]: the rank [k * (n - 1) / 10] has the whole part [lo],
    and the boundary lies between the order statistics [lo] and
    [lo + 1] in proportion to the rest (section 4.3). *)
Definition decile_boundary (s : list R) (k : nat) : R :=
  let n := length s in
  let lo := (k * (n - 1) / 10)%nat in
  let part := INR ((k * (n - 1)) mod 10) / 10 in
  nth lo s 0 + part * (nth (lo + 1) s 0 - nth lo s 0).

(** Modelled from the spec: [deciles] of section 4.3, the operation of
    [docs.deciles]. *)
Definition deciles (sel : list Listing) : list R :=
  if (length sel <? 2)%nat then []
  else
    let s := sort_ascending (map price_per_area sel) in
    map (decile_boundary s) (seq 1 9).

End Docs.

(** ** A small collection, for running the handlers *)

Module Sample.
Import JS City.

Definition R1 : obj :=
  {[ "name" := VStr "R1"; "ranked" := VBool true;
     "avgPricePerSqm" := VNum (Fin 20); "total" := VNum (Fin 120);
     "neighborhoods" := VArr [VObj [("name", VStr "North")]];
     "months" := VArr []; "deciles" := VArr [VNum (Fin 12)] ]}.

Definition R2 : obj :=
  {[ "name" := VStr "R2"; "ranked" := VBool true;
     "avgPricePerSqm" := VNum (Fin 15); "total" := VNum (Fin 300) ]}.

Definition R3 : obj :=
  {[ "name" := VStr "R3"; "avgPricePerSqm" := VNum (Fin 30);
     "total" := VNum (Fin 40) ]}.

(** The records in store order: R2, R3, R1. *)
Definition store : heap := {[ 1%positive := R2; 2%positive := R3; 3%positive := R1 ]}.
Definition cities : list loc := [1%positive; 2%positive; 3%positive].


(** Stand-ins for the helpers, enough to run [index] and [search]:
    pages of 50 from the start, the text itself as its slug, and a
    pattern matched when its characters occur in order. *)
Fixpoint occurs_in_order (pattern text : string) : bool :=
  match text with
  | EmptyString => match pattern with EmptyString => true | _ => false end
  | String c rest =>
      match pattern with
      | EmptyString => true
      | String p more =>
          if Ascii.eqb p c then occurs_in_order more rest
          else occurs_in_order pattern rest
      end
  end.

#[export] Instance helpers : Helpers := {|
  paginator_offset := fun _ => mkPage 0 50;
  slug := fun v => match v with VStr s => s | _ => "" end;
  fuzzy_test := occurs_in_order;
|}.


(** Three listings at one point whose rents lie on a line. *)
Definition listing_at_origin (space rent : R) : Docs.Listing :=
  Docs.mkListing 0 0 space rent None None.

Definition linear_rents : list Docs.Listing :=
  [listing_at_origin 50 500; listing_at_origin 60 650; listing_at_origin 70 800].

(** Two listings of 10 square metres, the dearer one first. *)
Definition two_prices : list Docs.Listing :=
  [listing_at_origin 10 200; listing_at_origin 10 100].


(** A ranking request for an indicator that does not exist. *)
Definition cheapest_request : query := {[ "indicator" := "cheapest" ]}.

(** Coordinates, and a room filter with a piece that is not a number. *)
Definition rooms_request : query := {[ "q" := "52.5,13.4"; "no_rooms" := "1,x" ]}.

(** Coordinates with a radius above the ceiling and no bounds on the
    living space. *)
Definition wide_request : query := {[ "q" := "52.5,13.4"; "radius" := "35" ]}.

(** A doc model that always answers, and a geocoder that cannot be
    reached: enough to run [geocode] on coordinates. *)
Definition world : World unit unit := {|
  request := fun _ s => (mkReply (VStr "ENOTFOUND") VUndefined, s);
  docs_center := fun _ s => (Resolved tt, s);
  docs_getStats := fun _ _ _ s => (Resolved {[ "total" := VNum (Fin 0) ]}, s);
  docs_deciles := fun _ s => (Resolved (VArr []), s);
|}.


(** Coordinates with a radius below zero, and with bounds on the
    living space beyond the defaults. *)
Definition negative_radius_request : query :=
  {[ "q" := "52.5,13.4"; "radius" := "-5" ]}.
Definition wide_bounds_request : query :=
  {[ "q" := "52.5,13.4"; "min_living_space" := "300"; "max_living_space" := "500";
     "limit" := "10" ]}.

(** A geocoder that finds one place, for a query that is a text. *)
Definition berlin : value :=
  VObj [("lat", VStr "52.52437"); ("lon", VStr "13.41053");
        ("display_name", VStr "Berlin"); ("type", VStr "city")].
Definition world_with_geocoder : World unit unit := {|
  request := fun _ s => (mkReply VNull (VArr [berlin]), s);
  docs_center := fun _ s => (Resolved tt, s);
  docs_getStats := fun _ _ _ s => (Resolved {[ "total" := VNum (Fin 0) ]}, s);
  docs_deciles := fun _ s => (Resolved (VArr []), s);
|}.
Definition text_request : query := {[ "q" := "Berlin" ]}.

(** A geocoder that answers without an error and without a body. *)
Definition world_without_body : World unit unit := {|
  request := fun _ s => (mkReply VNull VUndefined, s);
  docs_center := fun _ s => (Resolved tt, s);
  docs_getStats := fun _ _ _ s => (Resolved {[ "total" := VNum (Fin 0) ]}, s);
  docs_deciles := fun _ s => (Resolved (VArr []), s);
|}.


(** What [world] makes of [rooms_request]: the place of the
    coordinates, the statistics, then the deciles. *)
Definition rooms_answer : obj :=
  <["deciles" := VArr []]>
    (extend
       (place_of_coordinates (host := Node.node) (Fin 20)
          [VNum (Fin (105 # 2)); VNum (Fin (67 # 5))])
       {[ "total" := VNum (Fin 0) ]}).

(** Statistics that resolve to a total, whatever the city. *)
Definition total_of_five (city : loc) : M (outcome obj) :=
  fun h => (Resolved {[ "total" := VNum (Fin 5) ]}, h).

(** A collection that finds the first stored city of the given name. *)
#[export] Instance collection : Collection := {|
  collection_get := fun cities h name =>
    List.find (fun c =>
      match get (deref h c) "name", name with
      | VStr a, VStr b => String.eqb a b
      | _, _ => false
      end) cities;
|}.

End Sample.

(** * Properties *)

(** ** Numbers and sorting *)

Section Sorting.
Import JS.

Lemma Qltb_lt (x y : Q) : Qltb x y = true <-> (x < y)%Q.
Proof.
  unfold Qltb. rewrite negb_true_iff, <- not_true_iff_false, Qle_bool_iff.
  split; intros; lra.
Qed.

Lemma num_lt_le (a b : number) : num_lt a b = true -> num_le a b.
Proof.
  destruct a, b; simpl; try done.
  rewrite Qltb_lt. intros; lra.
Qed.

Lemma num_strict_eq_le (a b : number) : num_strict_eq a b = true -> num_le b a.
Proof.
  destruct a, b; simpl; try done.
  intros E%Qeq_bool_iff. lra.
Qed.

Lemma num_trichotomy (a b : number) :
  num_isNaN a = false -> num_isNaN b = false ->
  num_strict_eq a b = false -> num_lt a b = false -> num_lt b a = false -> False.
Proof.
  destruct a, b; simpl; try done.
  intros _ _ E L1 L2.
  apply not_true_iff_false in E, L1, L2.
  rewrite Qltb_lt in L1, L2. rewrite Qeq_bool_iff in E.
  apply E. lra.
Qed.

Lemma num_le_trans (a b c : number) : num_le a b -> num_le b c -> num_le a c.
Proof.
  destruct a, b, c; simpl; try done. intros; lra.
Qed.

Lemma ascending_trans (a b c : number) :
  ascending a b -> ascending b c -> ascending a c.
Proof.
  intros [Hb|Hab] [Hc|Hbc]; try (by left).
  - destruct b; done.
  - right. by eapply num_le_trans.
Qed.

Lemma compareAscending_cases (a b : number) :
  (compareAscending a b = 0 /\ num_le a b /\ num_le b a)
  \/ (compareAscending a b = 1 /\ ascending b a)
  \/ (compareAscending a b = -1 /\ ascending a b).
Proof.
  unfold compareAscending.
  destruct (num_strict_eq a b) eqn:E.
  { left. split; [done|]. split; [|by apply num_strict_eq_le].
    apply num_strict_eq_le. destruct a, b; simpl in *; try done.
    apply Qeq_bool_iff in E. apply Qeq_bool_iff. lra. }
  destruct (num_lt b a) eqn:L1; simpl.
  { right; left. split; [done|]. right. by apply num_lt_le. }
  destruct (num_isNaN a) eqn:Na; simpl.
  { right; left. split; [done|]. by left. }
  destruct (num_lt a b) eqn:L2; simpl.
  { right; right. split; [done|]. right. by apply num_lt_le. }
  destruct (num_isNaN b) eqn:Nb; simpl.
  { right; right. split; [done|]. by left. }
  exfalso. exact (num_trichotomy a b Na Nb E L2 L1).
Qed.

Lemma StronglySorted_weaken {B} (R R' : B -> B -> Prop) (l : list B) :
  (forall x y, R x y -> R' x y) -> StronglySorted R l -> StronglySorted R' l.
Proof.
  intros Himpl. induction 1 as [|x l Hs IH Hall]; constructor; [done|].
  eapply Forall_impl; [exact Hall|]. intros y. apply Himpl.
Qed.

Lemma array_insert_Permutation {B} (cmp : B -> B -> Z) (x : B) (l : list B) :
  Permutation (array_insert cmp x l) (x :: l).
Proof.
  induction l as [|y l IH]; simpl; [done|].
  destruct (0 <? cmp x y); [|done].
  rewrite IH. apply perm_swap.
Qed.

Lemma array_sort_Permutation {B} (cmp : B -> B -> Z) (l : list B) :
  Permutation (array_sort cmp l) l.
Proof.
  induction l as [|x l IH]; simpl; [done|].
  rewrite array_insert_Permutation. by constructor.
Qed.

Context {A : Type}.

Lemma compareEntries_behind (x y : SortEntry A) :
  0 < compareEntries x y -> entries_ascending y x.
Proof.
  unfold compareEntries, entries_ascending.
  destruct (compareAscending_cases (criteria x) (criteria y))
    as [(-> & _ & H)|[(-> & H)|(-> & H)]]; simpl; intros; try done; try lia.
  by right.
Qed.

Lemma compareEntries_before (x y : SortEntry A) :
  ~ 0 < compareEntries x y -> entries_ascending x y.
Proof.
  unfold compareEntries, entries_ascending.
  destruct (compareAscending_cases (criteria x) (criteria y))
    as [(-> & H & _)|[(-> & H)|(-> & H)]]; simpl; intros; try done; try lia.
  by right.
Qed.

Lemma array_insert_sorted (x : SortEntry A) (l : list (SortEntry A)) :
  StronglySorted entries_ascending l ->
  StronglySorted entries_ascending (array_insert compareEntries x l).
Proof.
  induction 1 as [|y l Hsorted IH Hall]; simpl.
  { repeat constructor. }
  destruct (0 <? compareEntries x y) eqn:E.
  - apply Z.ltb_lt in E. constructor; [done|].
    rewrite array_insert_Permutation. constructor; [|done].
    by apply compareEntries_behind.
  - apply Z.ltb_ge in E.
    assert (entries_ascending x y) as Hxy by (apply compareEntries_before; lia).
    constructor; [by constructor|]. constructor; [done|].
    eapply Forall_impl; [exact Hall|]. intros z Hz.
    by eapply ascending_trans.
Qed.

Lemma array_sort_sorted (l : list (SortEntry A)) :
  StronglySorted entries_ascending (array_sort compareEntries l).
Proof.
  induction l; simpl; [constructor|by apply array_insert_sorted].
Qed.

Lemma imap_entry_value (g : nat -> A -> SortEntry A) (l : list A) :
  (forall i v, entry_value (g i v) = v) ->
  map entry_value (imap g l) = l.
Proof.
  revert g. induction l as [|x l IH]; intros g Hg; simpl; [done|].
  rewrite Hg. f_equal. apply IH. intros i v. apply Hg.
Qed.

Lemma imap_entry_criteria (f : A -> number) (g : nat -> A -> SortEntry A) (l : list A) :
  (forall i v, entry_value (g i v) = v) ->
  (forall i v, criteria (g i v) = f v) ->
  Forall (fun e => criteria e = f (entry_value e)) (imap g l).
Proof.
  revert g. induction l as [|x l IH]; intros g Hv Hc; simpl; constructor.
  - by rewrite Hv, Hc.
  - apply IH; intros i v; [apply Hv|apply Hc].
Qed.

Lemma sortBy_Permutation (f : A -> number) (l : list A) :
  Permutation (sortBy f l) l.
Proof.
  unfold sortBy. rewrite array_sort_Permutation.
  by rewrite imap_entry_value.
Qed.

Lemma sortBy_sorted (f : A -> number) (l : list A) :
  StronglySorted (fun x y => ascending (f x) (f y)) (sortBy f l).
Proof.
  unfold sortBy.
  pose proof (array_sort_sorted (imap (fun i v => mkEntry (f v) i v) l)) as Hs.
  assert (Forall (fun e => criteria e = f (entry_value e))
            (array_sort compareEntries (imap (fun i v => mkEntry (f v) i v) l))) as Hc.
  { rewrite array_sort_Permutation. by apply imap_entry_criteria. }
  induction Hs as [|e es Hs IH Hall]; simpl; [constructor|].
  apply Forall_cons in Hc as [He Hes].
  constructor; [by apply IH|].
  rewrite Forall_map. 
  rewrite Forall_forall in Hall, Hes. apply Forall_forall. intros e' Hin.
  unfold entries_ascending in Hall. simpl.
  rewrite <- He, <- (Hes e' Hin). by apply Hall.
Qed.

End Sorting.

(** ** ranking *)

Section Ranking.
Import JS City.
Context {host : Host}.

Lemma negated_ascending (a b : number) :
  ascending (num_mul (Fin (-1)) a) (num_mul (Fin (-1)) b) -> descending a b.
Proof.
  unfold ascending, descending.
  destruct a, b; simpl; try tauto.
  intros [?|?]; [done|]. right. lra.
Qed.

Lemma indexOf_found (l : list string) (s : string) :
  (-1 <? indexOf l (VStr s)) = true <-> s ∈ l.
Proof.
  induction l as [|x l IH]; simpl.
  - split; [done|]. by intros ?%elem_of_nil.
  - rewrite elem_of_cons. destruct (String.eqb_spec x s) as [->|Hne].
    + split; [by left|reflexivity].
    + destruct (indexOf l (VStr s) <? 0) eqn:E.
      * split; [done|]. intros [->|Hin]; [done|].
        apply IH in Hin. apply Z.ltb_lt in E, Hin. lia.
      * apply Z.ltb_ge in E. split.
        -- intros _. right. apply IH. apply Z.ltb_lt. lia.
        -- intros _. apply Z.ltb_lt. lia.
Qed.

Lemma chosen_indicator_known (req : query) : chosen_indicator req ∈ indicators.
Proof.
  unfold chosen_indicator, param.
  destruct (req !! "indicator") as [s|]; [|set_solver].
  destruct (-1 <? indexOf indicators (VStr s)) eqn:E; [|set_solver].
  by apply indexOf_found.
Qed.

Lemma chosen_indicator_listed (req : query) (s : string) :
  req !! "indicator" = Some s -> s ∈ indicators -> chosen_indicator req = s.
Proof.
  intros Hs Hin. unfold chosen_indicator, param. rewrite Hs.
  apply indexOf_found in Hin. by rewrite Hin.
Qed.

Lemma chosen_indicator_default (req : query) :
  (forall s, req !! "indicator" = Some s -> s ∉ indicators) ->
  chosen_indicator req = "avgPricePerSqm".
Proof.
  intros Hreq. unfold chosen_indicator, param.
  destruct (req !! "indicator") as [s|]; [|done].
  destruct (-1 <? indexOf indicators (VStr s)) eqn:E; [|done].
  apply indexOf_found in E. by destruct (Hreq s).
Qed.

(** C7: ranking answers with the records flagged [ranked], each once,
    as pairs of name and indicator, in descending order of the chosen
    indicator; R1 (20), R2 (15) and the unflagged R3 give R1, R2. *)
Theorem ranking_eligible_sorted_descending (req : query) (cities : list loc) (h : heap) :
  let indicator := chosen_indicator req in
  let eligible := List.filter (fun c => truthy (get c "ranked")) (map (deref h) cities) in
  indicator ∈ indicators
  /\ (forall s, req !! "indicator" = Some s -> s ∈ indicators -> indicator = s)
  /\ (exists ranked : list obj,
        ranking req cities h
        = (Send 200 (BPairs (map (fun c => (get c "name", get c indicator)) ranked)), h)
        /\ Permutation ranked eligible
        /\ StronglySorted
             (fun c1 c2 => descending (ToNumber (get c1 indicator)) (ToNumber (get c2 indicator)))
             ranked)
  /\ (ranking (<["indicator" := "avgPricePerSqm"]> ∅) Sample.cities Sample.store).1
     = Send 200 (BPairs [(VStr "R1", VNum (Fin 20)); (VStr "R2", VNum (Fin 15))]).
Proof.
  intros indicator eligible. split; [apply chosen_indicator_known|]. split.
  { intros s Hs Hin. by apply chosen_indicator_listed. }
  split.
  - eexists. split; [reflexivity|]. split; [apply sortBy_Permutation|].
    eapply StronglySorted_weaken; [|apply sortBy_sorted].
    intros c1 c2. apply negated_ascending.
  - by vm_compute.
Qed.

(** C10: a ranking request without an indicator, or with one that is
    not among the three, is answered as the request for
    avgPricePerSqm. *)
Theorem ranking_unknown_indicator_is_default (req : query) (cities : list loc) (h : heap) :
  (forall s, req !! "indicator" = Some s -> s ∉ indicators) ->
  ranking req cities h = ranking (<["indicator" := "avgPricePerSqm"]> req) cities h.
Proof.
  intros Hreq. unfold ranking, bind, read_heap, ret.
  rewrite (chosen_indicator_default req Hreq).
  assert (chosen_indicator (<["indicator" := "avgPricePerSqm"]> req) = "avgPricePerSqm") as ->; [|done].
  apply chosen_indicator_listed; [apply lookup_insert_eq|set_solver].
Qed.

End Ranking.

Lemma ranking_unknown_indicator_is_default_witness :
  (forall s, Sample.cheapest_request !! "indicator" = Some s -> s ∉ City.indicators)
  /\ City.ranking (host := Node.node) Sample.cheapest_request Sample.cities Sample.store
     = City.ranking (host := Node.node)
         (<["indicator" := "avgPricePerSqm"]> Sample.cheapest_request)
         Sample.cities Sample.store.
Proof.
  assert (forall s, Sample.cheapest_request !! "indicator" = Some s -> s ∉ City.indicators) as H.
  { intros s [= <-] Hin.
    repeat (apply elem_of_cons in Hin as [Hin|Hin]; [discriminate Hin|]).
    by apply elem_of_nil in Hin. }
  split; [exact H|].
  exact (ranking_unknown_indicator_is_default (host := Node.node)
           Sample.cheapest_request Sample.cities Sample.store H).
Defined.

(** ** index and search leave the stored records alone *)

Section Index.
Import JS City.
Context {host : Host} {helpers : Helpers}.

Lemma cloneDeep_frame (h0 h : heap) (city : loc) :
  h0 ⊆ h ->
  h0 ⊆ (cloneDeep city h).2 /\ (cloneDeep city h).1 ∉ dom h0.
Proof.
  intros Hsub. unfold cloneDeep; simpl.
  assert (fresh (dom h) ∉ dom h) as Hfresh by apply is_fresh.
  split.
  - etrans; [exact Hsub|]. apply insert_subseteq. by apply not_elem_of_dom.
  - intros Hin. apply Hfresh. by apply (subseteq_dom _ _ Hsub).
Qed.

Lemma delete_property_frame (h0 h : heap) (city : loc) (k : string) :
  h0 ⊆ h -> city ∉ dom h0 -> h0 ⊆ (delete_property city k h).2.
Proof.
  intros Hsub Hcity. unfold delete_property; simpl.
  apply map_subseteq_spec. intros l o Hl.
  rewrite lookup_alter_ne.
  - by eapply lookup_weaken.
  - intros ->. apply Hcity. apply elem_of_dom. by eexists.
Qed.

Lemma forEach_delete_frame (h0 h : heap) (city : loc) (keys : list string) :
  h0 ⊆ h -> city ∉ dom h0 ->
  h0 ⊆ (forEach keys (fun k => delete_property city k) h).2.
Proof.
  revert h. induction keys as [|k keys IH]; intros h Hsub Hcity; simpl; [done|].
  unfold bind. destruct (delete_property city k h) as [u h1] eqn:E.
  apply IH; [|done].
  change h1 with ((u, h1).2). rewrite <- E. by apply delete_property_frame.
Qed.

Lemma without_excluded_frame (h0 h : heap) (city : loc) :
  h0 ⊆ h -> h0 ⊆ (without_excluded city h).2.
Proof.
  intros Hsub. unfold without_excluded, bind.
  destruct (cloneDeep_frame h0 h city Hsub) as [H1 H2].
  destruct (cloneDeep city h) as [city' h1]; simpl in *.
  exact (forEach_delete_frame h0 h1 city' INDEX_EXCLUDE H1 H2).
Qed.

Lemma map_M_without_excluded_frame (h0 h : heap) (l : list loc) :
  h0 ⊆ h -> h0 ⊆ (map_M without_excluded l h).2.
Proof.
  revert h. induction l as [|city l IH]; intros h Hsub; simpl; [done|].
  unfold bind.
  pose proof (without_excluded_frame h0 h city Hsub) as H1.
  destruct (without_excluded city h) as [c h1]; simpl in *.
  specialize (IH h1 H1).
  destruct (map_M without_excluded l h1) as [cs h2]; simpl in *. done.
Qed.

Lemma respond_frame (h0 h : heap) (l : list loc) :
  h0 ⊆ h ->
  h0 ⊆ (bind (map_M without_excluded l) json_list h).2.
Proof.
  intros Hsub. unfold bind.
  pose proof (map_M_without_excluded_frame h0 h l Hsub) as H1.
  destruct (map_M without_excluded l h) as [sent h1]; simpl in *. done.
Qed.

(** C9: index and search take the excluded properties off clones
    only: every object of the heap, so every stored city record, is
    after the answer what it was before; on the sample collection the
    record R1 is sent without months, neighborhoods and deciles and is
    still stored with them. *)
Theorem index_search_keep_stored_cities (req : query) (cities : list loc) (h : heap) :
  h ⊆ (index req cities h).2
  /\ h ⊆ (search req cities h).2
  /\ map excluded_view
       (sent_objects
          (index (host := Node.node) (helpers := Sample.helpers)
             ∅ [3%positive] Sample.store).1)
     = [(VStr "R1", None, None, None)]
  /\ map excluded_view
       (sent_objects
          (search (host := Node.node) (helpers := Sample.helpers)
             {[ "q" := "R1" ]} Sample.cities Sample.store).1)
     = [(VStr "R1", None, None, None)]
  /\ excluded_view Sample.R1
     = (VStr "R1", Some (VArr []), Some (VArr [VObj [("name", VStr "North")]]),
        Some (VArr [VNum (Fin 12)])).
Proof.
  split; [|split].
  - unfold index. unfold bind at 1, read_heap. simpl. by apply respond_frame.
  - unfold search. destruct (_ || _); [done|].
    unfold bind at 1, read_heap. simpl. by apply respond_frame.
  - by vm_compute.
Qed.

End Index.

(** ** geocode *)

Section GeocodeProperties.
Import JS City.
Context {host : Host} {Rows S : Type}.
Implicit Types (w : World Rows S) (s : S) (req : query) (place : obj).
Implicit Types (log : list (call Rows)) (resp : response).

Lemma run_sendCenter w s req place :
  served req place
    (run w (sendCenter req (valid_radius req) (valid_minLivingSpace req)
              (valid_maxLivingSpace req) (valid_noRooms req) place) s).1
    (run w (sendCenter req (valid_radius req) (valid_minLivingSpace req)
              (valid_maxLivingSpace req) (valid_noRooms req) place) s).2.
Proof.
  unfold sendCenter; simpl.
  fold (center_args req place).
  destruct (docs_center w (center_args req place) s) as [[err|rows] s1]; simpl.
  { constructor. }
  destruct (docs_getStats w rows _ _ s1) as [[err|stats] s2]; simpl.
  { constructor. }
  destruct (docs_deciles w rows s2) as [[err|deciles] s3]; simpl; constructor.
Qed.

Lemma run_geocode w s req :
  geocoded req (run w (geocode req) s).1 (run w (geocode req) s).2.
Proof.
  unfold geocode.
  destruct (truthy (param req "q")) eqn:Hq; simpl; [|by constructor].
  destruct (length (numbers_of (text_of (param req "q"))) =? 2)%nat.
  { apply geocoded_coordinates; [done|]. apply run_sendCenter. }
  simpl. destruct (request w _ s) as [[err body] s1].
  unfold reply_err, reply_body.
  destruct (truthy err) eqn:Herr.
  { simpl. apply geocoded_not_found; [done|..]; unfold has_places, callback_throws; simpl;
      by rewrite Herr. }
  destruct (nullish body) eqn:Hbody.
  { simpl. apply geocoded_thrown; [done|]. unfold callback_throws; simpl.
    by rewrite Herr, Hbody. }
  destruct (length_truthy body && push_truthy body) eqn:Hguard.
  - destruct (nullish (first_of body)) eqn:Hfirst.
    + simpl. apply geocoded_thrown; [done|]. unfold callback_throws; simpl.
      rewrite Herr, Hbody, Hfirst. simpl. by rewrite Hguard.
    + pose proof (run_sendCenter w s1 req
                    (place_of_answer (valid_radius req) (first_of body))) as Hs.
      destruct (run w (sendCenter _ _ _ _ _ _) s1) as [log resp]; simpl in *.
      apply geocoded_found; [done|..|done]; unfold has_places, callback_throws; simpl;
        rewrite Herr, Hbody, ?Hfirst; simpl; rewrite ?Hguard; [done|].
      by rewrite andb_false_r.
  - simpl. apply geocoded_not_found; [done|..]; unfold has_places, callback_throws; simpl;
      rewrite Herr, Hbody; simpl; by rewrite ?Hguard.
Qed.

Lemma run_sendCenter_center w s req place :
  CallCenter (center_args req place) (docs_center w (center_args req place) s).1
  ∈ (run w (sendCenter req (valid_radius req) (valid_minLivingSpace req)
             (valid_maxLivingSpace req) (valid_noRooms req) place) s).1.
Proof.
  unfold sendCenter; simpl.
  fold (center_args req place).
  destruct (docs_center w (center_args req place) s) as [[err|rows] s1]; simpl.
  { by left. }
  destruct (docs_getStats w rows _ _ s1) as [[err|stats] s2]; simpl.
  { by left. }
  destruct (docs_deciles w rows s2) as [[err|deciles] s3]; simpl; by left.
Qed.

Lemma run_geocode_coordinates w s req :
  truthy (param req "q") = true ->
  length (numbers_of (text_of (param req "q"))) = 2%nat ->
  run w (geocode req) s
  = run w (sendCenter req (valid_radius req) (valid_minLivingSpace req)
             (valid_maxLivingSpace req) (valid_noRooms req)
             (place_of_coordinates (valid_radius req)
                (numbers_of (text_of (param req "q"))))) s.
Proof.
  intros Hq Hlen. unfold geocode. by rewrite Hq, Hlen.
Qed.

Lemma run_geocode_text w s req :
  truthy (param req "q") = true ->
  length (numbers_of (text_of (param req "q"))) <> 2%nat ->
  let reply := (request w (text_of (param req "q")) s).1 in
  let s1 := (request w (text_of (param req "q")) s).2 in
  let sent :=
    run w (sendCenter req (valid_radius req) (valid_minLivingSpace req)
             (valid_maxLivingSpace req) (valid_noRooms req)
             (place_of_answer (valid_radius req) (first_of (reply_body reply)))) s1 in
  run w (geocode req) s
  = if truthy (reply_err reply) then
      ([CallRequest (text_of (param req "q")) reply], HandleError 404 (VStr "Not found"))
    else if nullish (reply_body reply) then
      ([CallRequest (text_of (param req "q")) reply], Thrown type_error)
    else if length_truthy (reply_body reply) && push_truthy (reply_body reply) then
      if nullish (first_of (reply_body reply)) then
        ([CallRequest (text_of (param req "q")) reply], Thrown type_error)
      else (CallRequest (text_of (param req "q")) reply :: sent.1, sent.2)
    else
      ([CallRequest (text_of (param req "q")) reply], HandleError 404 (VStr "Not found")).
Proof.
  intros Hq Hlen. unfold geocode. rewrite Hq. simpl negb. cbv iota.
  apply Nat.eqb_neq in Hlen. rewrite Hlen. cbv zeta. cbn [run].
  destruct (request w (text_of (param req "q")) s) as [reply s1]. cbn [fst snd].
  destruct (truthy (reply_err reply)); [done|].
  destruct (nullish (reply_body reply)); [done|].
  destruct (length_truthy (reply_body reply) && push_truthy (reply_body reply)); [|done].
  destruct (nullish (first_of (reply_body reply))); [done|].
  by destruct (run w (sendCenter _ _ _ _ _ _) s1).
Qed.

Lemma served_calculators req place log resp :
  served req place log resp ->
  forall args rows,
    CallCenter args (Resolved rows) ∈ log ->
    exists settled,
      CallGetStats rows (VNum (valid_radius req)) (VBool true) settled ∈ log
      /\ forall stats,
           settled = Resolved stats ->
           exists answered,
             CallDeciles rows answered ∈ log
             /\ forall deciles,
                  answered = Resolved deciles ->
                  resp = Send 200 (BObject (<["deciles" := deciles]> (extend place stats))).
Proof.
  destruct 1; intros args rows' Hin;
    repeat match goal with
           | H : _ ∈ [] |- _ => by apply elem_of_nil in H
           | H : _ ∈ _ :: _ |- _ => apply elem_of_cons in H as [H|H]
           end; simplify_eq.
  - eexists. split; [apply list_elem_of_further, list_elem_of_here|]. by intros ? [=].
  - eexists. split; [apply list_elem_of_further, list_elem_of_here|]. intros ? [= <-].
    eexists. split; [do 2 apply list_elem_of_further; apply list_elem_of_here|].
    by intros ? [=].
  - eexists. split; [apply list_elem_of_further, list_elem_of_here|]. intros ? [= <-].
    eexists. split; [do 2 apply list_elem_of_further; apply list_elem_of_here|].
    by intros ? [= <-].
Qed.

(** Membership in a list that is written out: one case per element. *)
Ltac elem_of_cases :=
  repeat match goal with
         | H : _ ∈ [] |- _ => by apply elem_of_nil in H
         | H : _ ∈ _ :: _ |- _ => apply elem_of_cons in H as [H|H]
         end.

Lemma served_once req place log resp :
  served req place log resp ->
  center_calls log = [center_args req place]
  /\ (forall rows radius flag res,
        CallGetStats rows radius flag res ∈ log ->
        CallCenter (center_args req place) (Resolved rows) ∈ log)
  /\ (forall rows res,
        CallDeciles rows res ∈ log ->
        CallCenter (center_args req place) (Resolved rows) ∈ log)
  /\ (forall b, resp = Send 200 b ->
        exists rows stats deciles,
          log = [CallCenter (center_args req place) (Resolved rows);
                 CallGetStats rows (VNum (valid_radius req)) (VBool true) (Resolved stats);
                 CallDeciles rows (Resolved deciles)]
          /\ b = BObject (<["deciles" := deciles]> (extend place stats))).
Proof.
  destruct 1; (split; [done|]); repeat split;
    try (intros; elem_of_cases; simplify_eq; set_solver);
    intros b Hb; simplify_eq; eauto.
Qed.

Lemma center_calls_request (q : string) (reply : Reply) (log : list (call Rows)) :
  center_calls (CallRequest q reply :: log) = center_calls log.
Proof. done. Qed.

(** C5: when geocode has a place, from the coordinates in [q] or
    from the geocoder, it calls [docs.center] exactly once, with the
    arguments of that place, and the call is answered by the world as
    it is at that moment; it never calls it twice. When that call
    resolves to rows, [docs.getStats] is called with these rows, and
    when the statistics come, [docs.deciles] is called with the same
    rows; the answer with status 200 is made of both. No call of
    [docs.getStats] or [docs.deciles] receives other rows. Without a
    place [docs.center] is not called: [q] is missing (400), the
    geocoder found nothing (404), or the callback of the request
    threw. *)
Theorem geocode_filters_once w s req :
  let q := text_of (param req "q") in
  let reply := (request w q s).1 in
  let at_coordinates :=
    center_args req (place_of_coordinates (valid_radius req) (numbers_of q)) in
  let at_answer :=
    center_args req (place_of_answer (valid_radius req) (first_of (reply_body reply))) in
  let log := (run w (geocode req) s).1 in
  let resp := (run w (geocode req) s).2 in
  (truthy (param req "q") = true ->
   length (numbers_of q) = 2%nat ->
   center_calls log = [at_coordinates]
   /\ CallCenter at_coordinates (docs_center w at_coordinates s).1 ∈ log)
  /\ (truthy (param req "q") = true ->
      length (numbers_of q) <> 2%nat ->
      has_places reply = true -> callback_throws reply = false ->
      center_calls log = [at_answer]
      /\ CallCenter at_answer (docs_center w at_answer (request w q s).2).1 ∈ log)
  /\ (length (center_calls log) <= 1)%nat
  /\ (forall args rows,
        CallCenter args (Resolved rows) ∈ log ->
        exists settled,
          CallGetStats rows (VNum (valid_radius req)) (VBool true) settled ∈ log
          /\ forall stats,
               settled = Resolved stats ->
               exists answered,
                 CallDeciles rows answered ∈ log
                 /\ forall deciles,
                      answered = Resolved deciles ->
                      exists place,
                        resp = Send 200 (BObject (<["deciles" := deciles]> (extend place stats))))
  /\ (forall rows radius flag res,
        CallGetStats rows radius flag res ∈ log ->
        exists args, center_calls log = [args] /\ CallCenter args (Resolved rows) ∈ log)
  /\ (forall rows res,
        CallDeciles rows res ∈ log ->
        exists args, center_calls log = [args] /\ CallCenter args (Resolved rows) ∈ log)
  /\ (forall b, resp = Send 200 b ->
        exists args rows stats deciles place,
          center_calls log = [args]
          /\ CallCenter args (Resolved rows) ∈ log
          /\ CallGetStats rows (VNum (valid_radius req)) (VBool true) (Resolved stats) ∈ log
          /\ CallDeciles rows (Resolved deciles) ∈ log
          /\ b = BObject (<["deciles" := deciles]> (extend place stats)))
  /\ (center_calls log = [] ->
      (truthy (param req "q") = false
       /\ resp = HandleError 400 (VStr "Missing 'q' parameter."))
      \/ (truthy (param req "q") = true /\ length (numbers_of q) <> 2%nat
          /\ has_places reply = false /\ callback_throws reply = false
          /\ resp = HandleError 404 (VStr "Not found"))
      \/ (truthy (param req "q") = true /\ length (numbers_of q) <> 2%nat
          /\ callback_throws reply = true
          /\ resp = Thrown type_error)).
Proof.
  intros q reply at_coordinates at_answer log resp.
  subst q reply at_coordinates at_answer log resp.
  split; [|split].
  { intros Hq Hlen. rewrite (run_geocode_coordinates w s req Hq Hlen). split.
    - eapply served_once, run_sendCenter.
    - apply run_sendCenter_center. }
  { intros Hq Hlen Hplaces Hthrows. rewrite (run_geocode_text w s req Hq Hlen).
    revert Hplaces Hthrows. unfold has_places, callback_throws.
    destruct (truthy (reply_err _)); [done|].
    destruct (nullish (reply_body _)); [done|]. simpl.
    destruct (length_truthy _ && push_truthy _); [|done]. simpl.
    destruct (nullish (first_of _)); [done|]. intros _ _. cbn [fst snd]. split.
    - rewrite center_calls_request. eapply served_once, run_sendCenter.
    - apply elem_of_cons. right. apply run_sendCenter_center. }
  destruct (truthy (param req "q")) eqn:Hq.
  2:{ unfold geocode. rewrite Hq. simpl.
      repeat split; [lia|by intros * ?%elem_of_nil..|done|by left]. }
  destruct (decide (length (numbers_of (text_of (param req "q"))) = 2%nat)) as [Hlen|Hlen].
  { rewrite (run_geocode_coordinates w s req Hq Hlen).
    pose proof (run_sendCenter w s req
                  (place_of_coordinates (valid_radius req)
                     (numbers_of (text_of (param req "q"))))) as Hs.
    destruct (served_once _ _ _ _ Hs) as (Hc & Hg & Hd & Hb).
    rewrite Hc. repeat split; [simpl; lia| |eauto..| |done].
    - intros args rows Hin.
      destruct (served_calculators _ _ _ _ Hs args rows Hin) as (settled & H1 & H2).
      exists settled. split; [done|]. intros stats Hstats.
      destruct (H2 stats Hstats) as (answered & H3 & H4). exists answered. eauto.
    - intros b [rows [stats [deciles [Hlog ->]]]]%Hb. rewrite Hlog.
      eexists _, rows, stats, deciles, _.
    split; [reflexivity|]. split; [apply list_elem_of_here|].
    split; [apply list_elem_of_further, list_elem_of_here|].
    split; [do 2 apply list_elem_of_further; apply list_elem_of_here|reflexivity]. }
  rewrite (run_geocode_text w s req Hq Hlen). unfold has_places, callback_throws.
  destruct (truthy (reply_err _)) eqn:Herr.
  { repeat split; simpl; [lia|by intros * [?|?%elem_of_nil]%elem_of_cons..|done|].
    intros _. right. by left. }
  destruct (nullish (reply_body _)) eqn:Hbody.
  { repeat split; simpl; [lia|by intros * [?|?%elem_of_nil]%elem_of_cons..|done|].
    intros _. right. by right. }
  destruct (length_truthy _ && push_truthy _) eqn:Hguard.
  2:{ repeat split; simpl; [lia|by intros * [?|?%elem_of_nil]%elem_of_cons..|done|].
      intros _. right. by left. }
  destruct (nullish (first_of _)) eqn:Hfirst.
  { repeat split; simpl; [lia|by intros * [?|?%elem_of_nil]%elem_of_cons..|done|].
    intros _. right. by right. }
  pose proof (run_sendCenter w (request w (text_of (param req "q")) s).2 req
                (place_of_answer (valid_radius req)
                   (first_of (reply_body (request w (text_of (param req "q")) s).1)))) as Hs.
  destruct (served_once _ _ _ _ Hs) as (Hc & Hg & Hd & Hb).
  cbn [fst snd]. rewrite center_calls_request, Hc. repeat split; [simpl; lia| | | | |done].
  - intros args rows [?|Hin]%elem_of_cons; [done|].
    destruct (served_calculators _ _ _ _ Hs args rows Hin) as (settled & H1 & H2).
    exists settled. split; [by apply elem_of_cons; right|]. intros stats Hstats.
    destruct (H2 stats Hstats) as (answered & H3 & H4). exists answered.
    split; [by apply elem_of_cons; right|]. eauto.
  - intros * [?|Hin]%elem_of_cons; [done|].
    eexists. split; [done|]. apply elem_of_cons. right. eauto.
  - intros * [?|Hin]%elem_of_cons; [done|].
    eexists. split; [done|]. apply elem_of_cons. right. eauto.
  - intros b [rows [stats [deciles [Hlog ->]]]]%Hb. rewrite Hlog.
    eexists _, rows, stats, deciles, _.
    split; [reflexivity|]. split; [apply list_elem_of_further, list_elem_of_here|].
    split; [do 2 apply list_elem_of_further; apply list_elem_of_here|].
    split; [do 3 apply list_elem_of_further; apply list_elem_of_here|reflexivity].
Qed.

Lemma num_not_lt_le (a b : number) :
  num_isNaN a = false -> num_isNaN b = false -> num_lt b a = false -> num_le a b.
Proof.
  destruct a, b; simpl; try done.
  intros _ _ L%not_true_iff_false. rewrite Qltb_lt in L. lra.
Qed.

Lemma valid_radius_at_most_20 req : num_le (valid_radius req) (Fin 20).
Proof.
  unfold valid_radius, js_or, Math_min.
  destruct (truthy (param req "radius")); [|by vm_compute].
  destruct (isNaN (param req "radius")) eqn:E; [by vm_compute|].
  unfold isNaN in E. simpl (ToNumber (VNum _)).
  unfold num_min. destruct (ToNumber (param req "radius")) eqn:En; try done.
  destruct (num_lt (Fin 20) (Fin q)) eqn:L; [by vm_compute|].
  by apply num_not_lt_le.
Qed.

Lemma valid_radius_clamped req :
  num_lt (Fin 20) (ToNumber (param req "radius")) = true -> valid_radius req = Fin 20.
Proof.
  intros L. unfold valid_radius, js_or, Math_min.
  destruct (truthy (param req "radius")); [|by vm_compute].
  destruct (isNaN (param req "radius")) eqn:E; [by vm_compute|].
  simpl (ToNumber (VNum _)). unfold num_min.
  destruct (ToNumber (param req "radius")); try done. by rewrite L.
Qed.

Lemma valid_radius_default req :
  req !! "radius" = None \/ isNaN (param req "radius") = true -> valid_radius req = Fin 20.
Proof.
  intros H. unfold valid_radius, js_or.
  destruct H as [H|H].
  - unfold param. rewrite H. by vm_compute.
  - destruct (truthy (param req "radius")); [|by vm_compute].
    rewrite H. by vm_compute.
Qed.

Lemma place_of_coordinates_radius (r : number) (latlng : list value) :
  get (place_of_coordinates r latlng) "radius" = VNum r.
Proof. done. Qed.

Lemma place_of_answer_radius (r : number) (first : value) :
  get (place_of_answer r first) "radius" = VNum r.
Proof. done. Qed.

Lemma geocoded_center_args req log resp :
  geocoded req log resp ->
  forall args, args ∈ center_calls log ->
    arg_radius args = VNum (valid_radius req)
    /\ arg_minLivingSpace args = valid_minLivingSpace req
    /\ arg_maxLivingSpace args = valid_maxLivingSpace req
    /\ arg_noRooms args = valid_noRooms req
    /\ arg_limit args = param req "limit".
Proof.
  intros Hg args Hin.
  destruct Hg as [Hq|log resp Hq Hs|reply Hq Hnone Hkeeps|reply Hq Hthrows
                  |reply log resp Hq Hplaces Hkeeps Hs].
  - by apply elem_of_nil in Hin.
  - destruct (served_once _ _ _ _ Hs) as (Hc & _). rewrite Hc in Hin.
    apply list_elem_of_singleton in Hin as ->. simpl.
    by rewrite place_of_coordinates_radius.
  - by apply elem_of_nil in Hin.
  - by apply elem_of_nil in Hin.
  - destruct (served_once _ _ _ _ Hs) as (Hc & _).
    rewrite center_calls_request, Hc in Hin.
    apply list_elem_of_singleton in Hin as ->. simpl.
    by rewrite place_of_answer_radius.
Qed.

Lemma geocoded_not_rejected req log resp :
  geocoded req log resp ->
  truthy (param req "q") = true ->
  is_rejection resp = false
  /\ (center_calls log = [] ->
      resp = HandleError 404 (VStr "Not found") \/ resp = Thrown type_error).
Proof.
  intros Hg Hq.
  destruct Hg as [Hq'|log resp _ Hs|reply _ Hnone Hkeeps|reply _ Hthrows
                  |reply log resp _ Hplaces Hkeeps Hs].
  - congruence.
  - destruct (served_once _ _ _ _ Hs) as (Hc & _). rewrite Hc.
    split; [by destruct Hs|done].
  - split; [done|by left].
  - split; [done|by right].
  - destruct (served_once _ _ _ _ Hs) as (Hc & _).
    rewrite center_calls_request, Hc.
    split; [by destruct Hs|done].
Qed.

Lemma run_geocode_selects w s req :
  truthy (param req "q") = true ->
  length (numbers_of (text_of (param req "q"))) = 2%nat ->
  center_calls (run w (geocode req) s).1
  = [center_args req
       (place_of_coordinates (valid_radius req) (numbers_of (text_of (param req "q"))))].
Proof.
  intros Hq Hlen. rewrite (run_geocode_coordinates w s req Hq Hlen).
  eapply served_once, run_sendCenter.
Qed.

(** C6: the radius given to [docs.center] is a number that is at most
    20: it is 20 when the requested one is above 20, absent or not a
    number; an absent lower bound of the living space is 0 and an
    absent upper bound 200. A query with [q] is not turned down:
    whatever the radius and the bounds, with coordinates in [q] the
    selection runs, once; it does not run only when the geocoder finds
    no place (404) or the callback of the request throws. A request
    for the radius 35 without bounds selects with 20, 0 and 200. *)
Theorem geocode_radius_ceiling_and_defaults w s req :
  let log := (run w (geocode req) s).1 in
  let resp := (run w (geocode req) s).2 in
  (forall args, args ∈ center_calls log ->
     exists radius,
       arg_radius args = VNum radius
       /\ num_le radius (Fin 20)
       /\ (num_lt (Fin 20) (ToNumber (param req "radius")) = true -> radius = Fin 20)
       /\ (req !! "radius" = None \/ isNaN (param req "radius") = true -> radius = Fin 20)
       /\ (req !! "min_living_space" = None -> arg_minLivingSpace args = VNum (Fin 0))
       /\ (req !! "max_living_space" = None -> arg_maxLivingSpace args = VNum (Fin 200)))
  /\ (truthy (param req "q") = true ->
      is_rejection resp = false
      /\ (length (numbers_of (text_of (param req "q"))) = 2%nat ->
          exists args, center_calls log = [args])
      /\ (center_calls log = [] ->
          resp = HandleError 404 (VStr "Not found") \/ resp = Thrown type_error))
  /\ map (fun args => (arg_radius args, arg_minLivingSpace args, arg_maxLivingSpace args))
       (center_calls
          (run Sample.world (geocode (host := Node.node) Sample.wide_request) tt).1)
     = [(VNum (Fin 20), VNum (Fin 0), VNum (Fin 200))].
Proof.
  intros log resp. subst log resp. split; [|split].
  - intros args Hin.
    destruct (geocoded_center_args _ _ _ (run_geocode w s req) args Hin)
      as (Hr & Hmin & Hmax & _).
    exists (valid_radius req). split; [done|].
    split; [apply valid_radius_at_most_20|].
    split; [apply valid_radius_clamped|].
    split; [apply valid_radius_default|].
    rewrite Hmin, Hmax. unfold valid_minLivingSpace, valid_maxLivingSpace, param.
    split; intros ->; by vm_compute.
  - intros Hq.
    destruct (geocoded_not_rejected _ _ _ (run_geocode w s req) Hq) as [Hno Hnone].
    split; [done|]. split; [|done].
    intros Hlen. eexists. by apply run_geocode_selects.
  - by vm_compute.
Qed.

Lemma numbers_of_omap (text : string) :
  numbers_of text
  = map VNum
      (omap (fun piece =>
               let n := StringToNumber (trim piece) in
               if num_isNaN n then None else Some n)
         (split_comma text)).
Proof.
  unfold numbers_of. induction (split_comma text) as [|piece pieces IH]; simpl; [done|].
  unfold isNaN at 1. simpl.
  destruct (num_isNaN (StringToNumber (trim piece))); simpl; by rewrite IH.
Qed.

(** C8, as the code has it: the pieces of a room filter that do not
    read as a number are dropped, the numbers that remain are the
    filter given to [docs.center], in the order of the text, and the
    query is not turned down for it: with coordinates in [q] the
    selection runs, once, and it does not run only when the geocoder
    finds no place (404) or the callback of the request throws. *)
Theorem geocode_drops_unparsable_rooms w s req (text : string) :
  req !! "no_rooms" = Some text -> text <> "" ->
  let log := (run w (geocode req) s).1 in
  let resp := (run w (geocode req) s).2 in
  (forall args, args ∈ center_calls log ->
     arg_noRooms args
     = VArr (map VNum
               (omap (fun piece =>
                        let n := StringToNumber (trim piece) in
                        if num_isNaN n then None else Some n)
                  (split_comma text))))
  /\ (truthy (param req "q") = true ->
      is_rejection resp = false
      /\ (length (numbers_of (text_of (param req "q"))) = 2%nat ->
          exists args, center_calls log = [args])
      /\ (center_calls log = [] ->
          resp = HandleError 404 (VStr "Not found") \/ resp = Thrown type_error)).
Proof.
  intros Hrooms Htext log resp. subst log resp. split.
  - intros args Hin.
    destruct (geocoded_center_args _ _ _ (run_geocode w s req) args Hin)
      as (_ & _ & _ & -> & _).
    unfold valid_noRooms, param. rewrite Hrooms. simpl.
    destruct (String.eqb_spec text ""); [done|]. simpl.
    by rewrite numbers_of_omap.
  - intros Hq.
    destruct (geocoded_not_rejected _ _ _ (run_geocode w s req) Hq) as [Hno Hnone].
    split; [done|]. split; [|done].
    intros Hlen. eexists. by apply run_geocode_selects.
Qed.

End GeocodeProperties.

(** C8 fails as stated: the room filter [1,x] has a piece that is not
    a number, and the query is answered with status 200 from the rows
    selected with the filter [1]. *)
Lemma geocode_unparsable_rooms_answered :
  Sample.rooms_request !! "no_rooms" = Some "1,x"
  /\ City.unparsable_rooms (host := Node.node) "1,x" = true
  /\ City.is_error (City.run Sample.world (City.geocode (host := Node.node) Sample.rooms_request) tt).2 = false
  /\ map City.arg_noRooms
       (City.center_calls (City.run Sample.world (City.geocode (host := Node.node) Sample.rooms_request) tt).1)
     = [JS.VArr [JS.VNum (JS.Fin 1)]].
Proof. by vm_compute. Qed.

Lemma geocode_drops_unparsable_rooms_witness :
  Sample.rooms_request !! "no_rooms" = Some "1,x" /\ "1,x" <> "" /\
  (forall args,
     args ∈ City.center_calls (City.run Sample.world (City.geocode (host := Node.node) Sample.rooms_request) tt).1 ->
     City.arg_noRooms args
     = JS.VArr (map JS.VNum
               (omap (fun piece =>
                        let n := Node.string_to_number (JS.trim piece) in
                        if JS.num_isNaN n then None else Some n)
                  (JS.split_comma "1,x")))).
Proof.
  split; [reflexivity|]. split; [discriminate|].
  apply (geocode_drops_unparsable_rooms (host := Node.node)
           Sample.world tt Sample.rooms_request "1,x");
    [reflexivity|discriminate].
Defined.

(** ** The doc model *)

Section Regression.
Import Docs.
Local Open Scope R_scope.

Lemma sum_app (l1 l2 : list R) : sum (l1 ++ l2) = sum l1 + sum l2.
Proof. induction l1; simpl; lra. Qed.

Lemma sum_shifted (l : list R) (m : R) :
  sum (map (fun x => x - m) l) = sum l - INR (length l) * m.
Proof.
  induction l as [|x l IH]; [simpl; lra|].
  rewrite length_cons, S_INR. simpl. rewrite IH. lra.
Qed.

Lemma sum_centered (l : list R) :
  l <> [] -> sum (map (fun x => x - mean l) l) = 0.
Proof.
  intros Hl. rewrite sum_shifted. unfold mean.
  assert (INR (length l) <> 0) by (apply not_0_INR; by destruct l).
  field. done.
Qed.

Lemma sum_squares_nonneg {A} (f : A -> R) (l : list A) :
  0 <= sum (map (fun x => (f x)²) l).
Proof.
  induction l as [|x l IH]; simpl; [lra|].
  pose proof (Rle_0_sqr (f x)). lra.
Qed.

Lemma sum_squares_zero {A} (f : A -> R) (l : list A) :
  sum (map (fun x => (f x)²) l) = 0 -> Forall (fun x => f x = 0) l.
Proof.
  induction l as [|x l IH]; simpl; [constructor|]. intros Hs.
  pose proof (Rle_0_sqr (f x)). pose proof (sum_squares_nonneg f l).
  constructor.
  - apply Rsqr_0_uniq. lra.
  - apply IH. lra.
Qed.

(** The squared error of any line, around any two centres. *)
Lemma squared_error_expand (sel : list Listing) (mx my a b : R) :
  squared_error sel a b
  = sum (map (fun l => (totalRent l - my)²) sel)
    - 2 * a * sum (map (fun l => (livingSpace l - mx) * (totalRent l - my)) sel)
    + a² * sum (map (fun l => (livingSpace l - mx)²) sel)
    + 2 * (my - a * mx - b)
        * (sum (map (fun y => y - my) (map totalRent sel))
           - a * sum (map (fun x => x - mx) (map livingSpace sel)))
    + INR (length sel) * (my - a * mx - b)².
Proof.
  unfold squared_error.
  induction sel as [|l sel IH]; [simpl; unfold Rsqr; lra|].
  rewrite length_cons, S_INR. simpl. rewrite IH. unfold Rsqr. ring.
Qed.

Lemma squared_error_centered (sel : list Listing) (a b : R) :
  sel <> [] ->
  squared_error sel a b
  = sum (map (fun l => (totalRent l - mean (map totalRent sel))²) sel)
    - 2 * a * covariation sel
    + a² * space_deviation sel
    + INR (length sel)
        * (mean (map totalRent sel) - a * mean (map livingSpace sel) - b)².
Proof.
  intros Hsel.
  rewrite (squared_error_expand sel (mean (map livingSpace sel)) (mean (map totalRent sel))).
  rewrite !sum_centered by (by destruct sel).
  unfold covariation, space_deviation. ring.
Qed.

Lemma squared_error_gap (sel : list Listing) (a b : R) :
  sel <> [] -> space_deviation sel <> 0 ->
  squared_error sel a b - squared_error sel (slope sel) (intercept sel)
  = space_deviation sel * (a - slope sel)²
    + INR (length sel)
        * (mean (map totalRent sel) - a * mean (map livingSpace sel) - b)².
Proof.
  intros Hsel Hdev.
  rewrite !squared_error_centered by done.
  unfold intercept, slope, Rsqr. field. done.
Qed.

Lemma space_deviation_nonneg (sel : list Listing) : 0 <= space_deviation sel.
Proof.
  unfold space_deviation.
  apply (sum_squares_nonneg (fun l => livingSpace l - mean (map livingSpace sel))).
Qed.

Lemma space_deviation_zero (sel : list Listing) :
  space_deviation sel = 0 ->
  Forall (fun l => livingSpace l = mean (map livingSpace sel)) sel.
Proof.
  intros H.
  apply (sum_squares_zero (fun l => livingSpace l - mean (map livingSpace sel))) in H.
  eapply Forall_impl; [exact H|]. simpl. intros l Hl. lra.
Qed.

Lemma space_deviation_constant (sel : list Listing) (c : R) :
  Forall (fun l => livingSpace l = c) sel -> space_deviation sel = 0.
Proof.
  intros Hc. destruct sel as [|l0 sel0] eqn:Esel; [done|]. rewrite <- Esel in *.
  assert (mean (map livingSpace sel) = c) as Hmean.
  { unfold mean.
    assert (sum (map livingSpace sel) = INR (length (map livingSpace sel)) * c) as ->.
    { clear Esel. induction Hc as [|l sel Hl Hc IH]; [simpl; lra|].
      rewrite map_cons, length_cons, S_INR. simpl. rewrite IH, Hl. lra. }
    assert (INR (length (map livingSpace sel)) <> 0).
    { apply not_0_INR. rewrite length_map, Esel. done. }
    field. done. }
  unfold space_deviation. rewrite Hmean. clear Esel Hmean.
  induction Hc as [|l sel Hl Hc IH]; simpl; [done|].
  rewrite IH, Hl. unfold Rsqr. lra.
Qed.

Lemma linear_rents_means :
  mean (map livingSpace Sample.linear_rents) = 60
  /\ mean (map totalRent Sample.linear_rents) = 650.
Proof. unfold mean; simpl. lra. Qed.

Lemma linear_rents_line :
  space_deviation Sample.linear_rents = 200
  /\ slope Sample.linear_rents = 15
  /\ intercept Sample.linear_rents = -250.
Proof.
  destruct linear_rents_means as [Hx Hy].
  assert (space_deviation Sample.linear_rents = 200) as Hd.
  { unfold space_deviation. rewrite Hx. simpl. unfold Rsqr. lra. }
  assert (slope Sample.linear_rents = 15) as Hs.
  { unfold slope, covariation. rewrite Hd, Hx, Hy. simpl. lra. }
  split; [done|]. split; [done|].
  unfold intercept. rewrite Hs, Hx, Hy. lra.
Qed.

Lemma linear_rents_stats : compute Sample.linear_rents = Stats 3 15 0.
Proof.
  destruct linear_rents_line as (Hd & Hs & Hi).
  unfold compute. simpl (length _ <? 2)%nat. cbv iota.
  destruct (decide (space_deviation Sample.linear_rents = 0)) as [H0|_]; [lra|].
  rewrite Hs, Hi. f_equal.
  assert (squared_error Sample.linear_rents 15 (-250) = 0) as ->.
  { unfold squared_error. simpl. unfold Rsqr. lra. }
  unfold Rdiv. rewrite !Rmult_0_l, sqrt_0. lra.
Qed.

(** C3: a selection of fewer than two listings, or one whose living
    spaces are all the same, gets the insufficient-data condition and
    no slope. *)
Theorem compute_insufficient_data (sel : list Listing) :
  (length sel < 2)%nat \/ (exists c, Forall (fun l => livingSpace l = c) sel) ->
  compute sel = InsufficientData (length sel)
  /\ (forall total avgPricePerSqm stdErr, compute sel <> Stats total avgPricePerSqm stdErr).
Proof.
  intros Hdeg.
  assert (compute sel = InsufficientData (length sel)) as Hc.
  { unfold compute. destruct (length sel <? 2)%nat eqn:En; [done|].
    apply Nat.ltb_ge in En. destruct Hdeg as [Hn|[c Hc]]; [lia|].
    destruct (decide (space_deviation sel = 0)) as [_|Hne]; [done|].
    destruct Hne. by eapply space_deviation_constant. }
  split; [done|]. intros total avg err. by rewrite Hc.
Qed.

(** C1: for a selection with two different living spaces, the average
    price per square metre that compute reports is the slope of the
    least-squares line of the rent on the living space with a free
    intercept: no line has a smaller squared error and no other line
    has the same; for the living spaces 50, 60, 70 with the rents 500,
    650, 800 the slope is 15 with standard error 0, while the ratio of
    the means is not 15. *)
Theorem compute_slope_is_least_squares (sel : list Listing) :
  (exists l1 l2, l1 ∈ sel /\ l2 ∈ sel /\ livingSpace l1 <> livingSpace l2) ->
  (exists stdErr, compute sel = Stats (length sel) (slope sel) stdErr)
  /\ (forall a b,
        squared_error sel (slope sel) (intercept sel) <= squared_error sel a b)
  /\ (forall a b,
        squared_error sel a b <= squared_error sel (slope sel) (intercept sel) ->
        a = slope sel /\ b = intercept sel)
  /\ compute Sample.linear_rents = Stats 3 15 0
  /\ mean (map totalRent Sample.linear_rents) / mean (map livingSpace Sample.linear_rents) <> 15.
Proof.
  intros (l1 & l2 & H1 & H2 & Hne).
  assert (sel <> []) as Hsel by (intros ->; by apply elem_of_nil in H1).
  assert (2 <= length sel)%nat as Hlen.
  { destruct sel as [|x [|y sel]]; simpl; [done| |lia].
    apply list_elem_of_singleton in H1, H2. congruence. }
  assert (space_deviation sel <> 0) as Hdev.
  { intros H0%space_deviation_zero. rewrite Forall_forall in H0.
    apply Hne. by rewrite (H0 l1), (H0 l2). }
  assert (0 < space_deviation sel) as Hpos.
  { pose proof (space_deviation_nonneg sel). lra. }
  assert (0 < INR (length sel)) as Hn by (apply lt_0_INR; lia).
  split; [|split; [|split; [|split]]].
  - unfold compute. destruct (length sel <? 2)%nat eqn:En.
    { apply Nat.ltb_lt in En. lia. }
    destruct (decide (space_deviation sel = 0)); [done|]. by eexists.
  - intros a b. pose proof (squared_error_gap sel a b Hsel Hdev) as Hgap.
    pose proof (Rle_0_sqr (a - slope sel)).
    pose proof (Rle_0_sqr (mean (map totalRent sel) - a * mean (map livingSpace sel) - b)).
    nra.
  - intros a b Hle. pose proof (squared_error_gap sel a b Hsel Hdev) as Hgap.
    pose proof (Rle_0_sqr (a - slope sel)) as Hs1.
    pose proof (Rle_0_sqr (mean (map totalRent sel) - a * mean (map livingSpace sel) - b)) as Hs2.
    assert ((a - slope sel)² = 0) as Ha by nra.
    assert ((mean (map totalRent sel) - a * mean (map livingSpace sel) - b)² = 0) as Hb by nra.
    apply Rsqr_0_uniq in Ha, Hb. unfold intercept. split; [lra|].
    assert (a = slope sel) as <- by lra. lra.
  - apply linear_rents_stats.
  - destruct linear_rents_means as [-> ->]. lra.
Qed.

End Regression.

Lemma compute_insufficient_data_witness :
  ((length [Sample.listing_at_origin 50 500; Sample.listing_at_origin 50 700] < 2)%nat
   \/ (exists c, Forall (fun l => Docs.livingSpace l = c)
                  [Sample.listing_at_origin 50 500; Sample.listing_at_origin 50 700]))
  /\ Docs.compute [Sample.listing_at_origin 50 500; Sample.listing_at_origin 50 700]
     = Docs.InsufficientData 2.
Proof.
  assert ((length [Sample.listing_at_origin 50 500; Sample.listing_at_origin 50 700] < 2)%nat
   \/ (exists c, Forall (fun l => Docs.livingSpace l = c)
                  [Sample.listing_at_origin 50 500; Sample.listing_at_origin 50 700])) as H.
  { right. exists 50%R. repeat constructor. }
  split; [exact H|].
  exact (proj1 (compute_insufficient_data _ H)).
Defined.

Lemma compute_slope_is_least_squares_witness :
  (exists l1 l2, l1 ∈ Sample.linear_rents /\ l2 ∈ Sample.linear_rents
                 /\ Docs.livingSpace l1 <> Docs.livingSpace l2)
  /\ (exists stdErr,
        Docs.compute Sample.linear_rents
        = Docs.Stats (length Sample.linear_rents) (Docs.slope Sample.linear_rents) stdErr).
Proof.
  assert (exists l1 l2, l1 ∈ Sample.linear_rents /\ l2 ∈ Sample.linear_rents
                 /\ Docs.livingSpace l1 <> Docs.livingSpace l2) as H.
  { exists (Sample.listing_at_origin 50 500), (Sample.listing_at_origin 60 650).
    split; [set_solver|]. split; [set_solver|]. simpl. lra. }
  split; [exact H|].
  exact (proj1 (compute_slope_is_least_squares _ H)).
Defined.

Section Deciles.
Import Docs.
Local Open Scope R_scope.

Lemma insert_ascending_Permutation (x : R) (l : list R) :
  Permutation (insert_ascending x l) (x :: l).
Proof.
  induction l as [|y l IH]; simpl; [done|].
  destruct (decide (x <= y)); [done|].
  rewrite IH. apply perm_swap.
Qed.

Lemma sort_ascending_Permutation (l : list R) : Permutation (sort_ascending l) l.
Proof.
  induction l as [|x l IH]; simpl; [done|].
  rewrite insert_ascending_Permutation. by constructor.
Qed.

Lemma insert_ascending_sorted (x : R) (l : list R) :
  StronglySorted Rle l -> StronglySorted Rle (insert_ascending x l).
Proof.
  induction 1 as [|y l Hs IH Hall]; simpl; [repeat constructor|].
  destruct (decide (x <= y)) as [Hxy|Hxy].
  - constructor; [by constructor|]. constructor; [done|].
    eapply Forall_impl; [exact Hall|]. simpl. intros z Hz. lra.
  - constructor; [done|].
    rewrite insert_ascending_Permutation. constructor; [lra|done].
Qed.

Lemma sort_ascending_sorted (l : list R) : StronglySorted Rle (sort_ascending l).
Proof.
  induction l; simpl; [constructor|by apply insert_ascending_sorted].
Qed.

Lemma decile_rank (n k : nat) :
  (1 <= k <= 9)%nat -> (2 <= n)%nat ->
  INR (k * (n - 1) / 10) + INR ((k * (n - 1)) mod 10) / 10 = INR k * INR (n - 1) / 10
  /\ 0 <= INR ((k * (n - 1)) mod 10) / 10 < 1
  /\ (k * (n - 1) / 10 + 1 < n)%nat.
Proof.
  intros Hk Hn.
  pose proof (Nat.div_mod_eq (k * (n - 1)) 10) as Hdm.
  pose proof (Nat.mod_upper_bound (k * (n - 1)) 10 ltac:(lia)) as Hr.
  set (lo := (k * (n - 1) / 10)%nat) in *.
  set (r := ((k * (n - 1)) mod 10)%nat) in *.
  assert (INR k * INR (n - 1) = 10 * INR lo + INR r) as HR.
  { rewrite <- mult_INR, Hdm, plus_INR, mult_INR. simpl. lra. }
  assert (0 <= INR r) by apply pos_INR.
  assert (INR r < 10).
  { replace 10 with (INR 10) by (simpl; lra). by apply lt_INR. }
  split; [lra|]. split; [lra|]. nia.
Qed.

Lemma nth_deciles (f : nat -> R) (k : nat) :
  (1 <= k <= 9)%nat -> nth (k - 1) (map f (seq 1 9)) 0 = f k.
Proof.
  intros Hk.
  assert (k = 1 \/ k = 2 \/ k = 3 \/ k = 4 \/ k = 5 \/ k = 6 \/ k = 7 \/ k = 8 \/ k = 9)%nat
    as Hcases by lia.
  repeat destruct Hcases as [->|Hcases]; try subst k; reflexivity.
Qed.

(** C4: for two listings or more the deciles are nine values; with
    the prices per area sorted ascending, the value for decile k lies
    between the order statistics around the rank k (n - 1) / 10, in
    proportion to the fraction of the rank; for fewer than two
    listings there are no deciles. The prices 20 and 10 have the
    deciles 11 to 19. *)
Theorem deciles_interpolate_order_statistics (sel : list Listing) :
  ((length sel < 2)%nat -> deciles sel = [])
  /\ ((2 <= length sel)%nat ->
      exists s : list R,
        Permutation s (map price_per_area sel)
        /\ StronglySorted Rle s
        /\ length (deciles sel) = 9%nat
        /\ forall k, (1 <= k <= 9)%nat ->
             exists (lo : nat) (part : R),
               INR lo + part = INR k * INR (length sel - 1) / 10
               /\ 0 <= part < 1
               /\ (lo + 1 < length sel)%nat
               /\ nth (k - 1) (deciles sel) 0
                  = nth lo s 0 + part * (nth (lo + 1) s 0 - nth lo s 0))
  /\ deciles Sample.two_prices = [11; 12; 13; 14; 15; 16; 17; 18; 19].
Proof.
  split; [|split].
  - intros Hn. unfold deciles. apply Nat.ltb_lt in Hn. by rewrite Hn.
  - intros Hn. exists (sort_ascending (map price_per_area sel)).
    split; [apply sort_ascending_Permutation|].
    split; [apply sort_ascending_sorted|].
    assert (deciles sel
            = map (decile_boundary (sort_ascending (map price_per_area sel))) (seq 1 9)) as ->.
    { unfold deciles. apply Nat.ltb_ge in Hn. by rewrite Hn. }
    split; [done|]. intros k Hk. rewrite nth_deciles by done.
    unfold decile_boundary.
    assert (length (sort_ascending (map price_per_area sel)) = length sel) as ->.
    { by rewrite sort_ascending_Permutation, length_map. }
    destruct (decile_rank (length sel) k Hk Hn) as (Hrank & Hpart & Hlo).
    eexists _, _. split; [exact Hrank|]. split; [exact Hpart|]. split; [exact Hlo|done].
  - unfold deciles, Sample.two_prices. simpl.
    unfold price_per_area; simpl.
    destruct (decide (200 / 10 <= 100 / 10)) as [H|_]; [lra|].
    unfold decile_boundary; simpl.
    repeat (apply (f_equal2 cons); [lra|]). reflexivity.
Qed.

End Deciles.

Section GeoFilterProperties.
Import Docs.
Local Open Scope R_scope.
Variable earth_radius_km : R.







End GeoFilterProperties.


(** * Further properties of the controller *)

(** ** What index and search send *)

Section Clones.
Import JS City.

Lemma without_keys_lookup (keys : list string) (o : obj) (k : string) :
  without_keys keys o !! k = if decide (k ∈ keys) then None else o !! k.
Proof.
  revert o. induction keys as [|a keys IH]; intros o; simpl.
  { destruct (decide (k ∈ [])) as [H|_]; [by apply elem_of_nil in H|done]. }
  change (without_keys (a :: keys) o) with (without_keys keys (delete a o)).
  rewrite IH. destruct (decide (k ∈ keys)) as [Hin|Hnot].
  - destruct (decide (k ∈ a :: keys)) as [_|Hn]; [done|]. destruct Hn. by right.
  - destruct (decide (k = a)) as [->|Hne].
    + rewrite lookup_delete_eq.
      destruct (decide (a ∈ a :: keys)) as [_|Hn]; [done|]. destruct Hn. by left.
    + rewrite lookup_delete_ne by done.
      destruct (decide (k ∈ a :: keys)) as [[?|?]%elem_of_cons|_]; done.
Qed.

Lemma forEach_delete_alter (keys : list string) (city : loc) (h : heap) :
  forEach keys (fun k => delete_property city k) h
  = (tt, alter (without_keys keys) city h).
Proof.
  revert h. induction keys as [|k keys IH]; intros h; simpl.
  - unfold ret. f_equal. symmetry. by apply alter_id.
  - unfold bind, delete_property at 1. rewrite IH. f_equal.
    by rewrite alter_alter_eq.
Qed.

Lemma clone_without_spec (keys : list string) (city : loc) (h : heap) :
  clone_without keys city h
  = (fresh (dom h), <[fresh (dom h) := without_keys keys (deref h city)]> h).
Proof.
  unfold clone_without, bind, cloneDeep. rewrite forEach_delete_alter.
  unfold ret. f_equal. by rewrite alter_insert_eq.
Qed.

Lemma deref_weaken (h h' : heap) (c : loc) :
  h ⊆ h' -> c ∈ dom h -> deref h' c = deref h c.
Proof.
  intros Hsub [o Ho]%elem_of_dom. unfold deref.
  by rewrite Ho, (lookup_weaken _ _ _ _ Ho Hsub).
Qed.

(** Cloning a list of stored objects: the heap only grows, and the
    clones read, at the end, as the originals without the keys. *)
Lemma map_M_clone_without (keys : list string) (l : list loc) (h : heap) :
  Forall (fun c => c ∈ dom h) l ->
  h ⊆ (map_M (clone_without keys) l h).2
  /\ map (deref (map_M (clone_without keys) l h).2) (map_M (clone_without keys) l h).1
     = map (fun c => without_keys keys (deref h c)) l.
Proof.
  revert h. induction l as [|c l IH]; intros h Hwf; simpl; [done|].
  apply Forall_cons in Hwf as [Hc Hl].
  unfold bind at 1 3 5. rewrite clone_without_spec.
  set (c' := fresh (dom h)).
  set (h1 := <[c' := without_keys keys (deref h c)]> h).
  assert (h ⊆ h1) as Hsub.
  { apply insert_subseteq, not_elem_of_dom, is_fresh. }
  assert (Forall (fun c => c ∈ dom h1) l) as Hl1.
  { eapply Forall_impl; [exact Hl|]. intros x Hx. by apply (subseteq_dom _ _ Hsub). }
  destruct (IH h1 Hl1) as [Hsub1 Hmap].
  unfold bind. destruct (map_M (clone_without keys) l h1) as [ys h2]; simpl in *.
  split; [by etrans|]. f_equal.
  - unfold deref at 1.
    assert (h1 !! c' = Some (without_keys keys (deref h c))) as Hc'
      by apply lookup_insert_eq.
    by rewrite (lookup_weaken _ _ _ _ Hc' Hsub1).
  - rewrite Hmap. apply map_ext_in. intros x Hx%list_elem_of_In.
    rewrite Forall_forall in Hl. f_equal. by apply deref_weaken, Hl.
Qed.

Lemma respond_clone_without (keys : list string) (l : list loc) (h : heap) :
  Forall (fun c => c ∈ dom h) l ->
  (bind (map_M (clone_without keys) l) json_list h).1
  = Send 200 (BList (map (fun c => without_keys keys (deref h c)) l)).
Proof.
  intros Hwf. destruct (map_M_clone_without keys l h Hwf) as [_ Hmap].
  unfold bind. destruct (map_M (clone_without keys) l h) as [sent h']; simpl in *.
  by rewrite Hmap.
Qed.

Lemma List_filter_sublist {A} (f : A -> bool) (l : list A) :
  List.filter f l `sublist_of` l.
Proof.
  induction l as [|x l IH]; simpl; [constructor|].
  destruct (f x); by constructor.
Qed.

Lemma slice_sublist {A} (start stop : Z) (l : list A) :
  slice start stop l `sublist_of` l.
Proof.
  unfold slice. etrans; [apply sublist_take|apply sublist_drop].
Qed.

Lemma slice_page {A} (first count : Z) (l : list A) :
  0 <= first -> 0 <= count ->
  slice first (first + count) l = take (Z.to_nat count) (drop (Z.to_nat first) l).
Proof.
  intros Hf Hc. unfold slice.
  destruct (Z.ltb_spec first 0) as [?|_]; [lia|].
  destruct (Z.ltb_spec (first + count) 0) as [?|_]; [lia|].
  destruct (decide (Z.of_nat (length l) <= first)) as [Hge|Hlt].
  - rewrite (Z.min_r first) by lia.
    rewrite !drop_ge by lia. by rewrite !take_nil.
  - rewrite (Z.min_l first) by lia.
    destruct (decide (first + count <= Z.of_nat (length l))) as [Hin|Hout].
    + rewrite Z.min_l by lia. f_equal. lia.
    + rewrite Z.min_r by lia. rewrite !take_ge; [done|rewrite length_drop; lia..].
Qed.

Lemma sublist_Forall {A} (P : A -> Prop) (l1 l2 : list A) :
  l1 `sublist_of` l2 -> Forall P l2 -> Forall P l1.
Proof.
  rewrite !Forall_forall. intros Hsub HP x Hx. apply HP. by eapply elem_of_sublist.
Qed.

Lemma map_M_cons {A B} (f : A -> M B) (x : A) (l : list A) (h : heap) :
  map_M f (x :: l) h
  = let (y, h1) := f x h in let (ys, h2) := map_M f l h1 in (y :: ys, h2).
Proof. done. Qed.

(** Cloning any list of references: every clone lacks the keys. *)
Lemma map_M_clone_without_keys (keys : list string) (l : list loc) (h : heap) :
  h ⊆ (map_M (clone_without keys) l h).2
  /\ Forall (fun c' => exists o, (map_M (clone_without keys) l h).2 !! c'
                                = Some (without_keys keys o))
       (map_M (clone_without keys) l h).1.
Proof.
  revert h. induction l as [|c l IH]; intros h; [by split|].
  rewrite map_M_cons, clone_without_spec.
  set (c' := fresh (dom h)).
  set (h1 := <[c' := without_keys keys (deref h c)]> h).
  assert (h ⊆ h1) as Hsub.
  { apply insert_subseteq, not_elem_of_dom, is_fresh. }
  destruct (IH h1) as [Hsub1 Hall].
  destruct (map_M (clone_without keys) l h1) as [ys h2]; simpl in *.
  split; [by etrans|]. constructor; [|done].
  exists (deref h c). eapply lookup_weaken; [|exact Hsub1]. apply lookup_insert_eq.
Qed.

Lemma respond_clone_without_keys (keys : list string) (l : list loc) (h : heap) :
  Forall (fun o => forall k, k ∈ keys -> o !! k = None)
    (sent_objects (bind (map_M (clone_without keys) l) json_list h).1).
Proof.
  destruct (map_M_clone_without_keys keys l h) as [_ Hall].
  unfold bind. destruct (map_M (clone_without keys) l h) as [sent h']; simpl in *.
  rewrite Forall_map. eapply Forall_impl; [exact Hall|].
  intros c' [o Ho] k Hk. unfold deref. rewrite Ho. simpl.
  rewrite without_keys_lookup. by destruct (decide (k ∈ keys)).
Qed.

End Clones.

Section ListHandlers.
Import JS City.
Context {host : Host} {helpers : Helpers}.

(** X1: on a collection whose references are stored, and a page that
    starts at or after 0 with a size of 0 or more, index answers 200
    with the stored records of that page, taken from the cities with
    neighborhoods when that is asked for, each without months,
    neighborhoods and deciles and otherwise as stored. *)
Theorem index_sends_page_of_stored_records (req : query) (cities : list loc) (h : heap) :
  Forall (fun c => c ∈ dom h) cities ->
  0 <= offset (paginator_offset req) ->
  0 <= limit (paginator_offset req) ->
  (index req cities h).1
  = Send 200
      (BList
         (map (fun c => without_keys INDEX_EXCLUDE (deref h c))
            (take (Z.to_nat (limit (paginator_offset req)))
               (drop (Z.to_nat (offset (paginator_offset req)))
                  (if truthy (VNum (js_mul (VNum (Fin 1)) (param req "has_neighborhoods")))
                   then List.filter
                          (fun c => truthy (get (deref h c) "neighborhoods")) cities
                   else cities))))).
Proof.
  intros Hwf Hoff Hlim. unfold index. unfold bind at 1, read_heap. simpl.
  rewrite slice_page by done.
  apply (respond_clone_without INDEX_EXCLUDE).
  eapply sublist_Forall; [|exact Hwf].
  etrans; [apply sublist_take|]. etrans; [apply sublist_drop|].
  match goal with |- context [if ?b then _ else _] => destruct b end;
    [apply List_filter_sublist|done].
Qed.

(** X2: no object that index or search sends has one of the
    properties months, neighborhoods, deciles, whatever the request,
    the collection and the heap. *)
Theorem index_search_never_send_excluded (req : query) (cities : list loc) (h : heap) :
  Forall (fun o => o !! "months" = None /\ o !! "neighborhoods" = None
                   /\ o !! "deciles" = None)
    (sent_objects (index req cities h).1)
  /\ Forall (fun o => o !! "months" = None /\ o !! "neighborhoods" = None
                      /\ o !! "deciles" = None)
       (sent_objects (search req cities h).1).
Proof.
  assert (forall l h',
            Forall (fun o => o !! "months" = None /\ o !! "neighborhoods" = None
                             /\ o !! "deciles" = None)
              (sent_objects (bind (map_M without_excluded l) json_list h').1)) as Hsent.
  { intros l h'. eapply Forall_impl; [apply (respond_clone_without_keys INDEX_EXCLUDE)|].
    intros o Ho. repeat split; apply Ho; set_solver. }
  split.
  - unfold index. unfold bind at 1, read_heap. simpl. apply Hsent.
  - unfold search. destruct (_ || _); [constructor|].
    unfold bind at 1, read_heap. simpl. apply Hsent.
Qed.

Lemma search_guard_nonempty (q : string) :
  q <> "" -> negb (truthy (VStr q)) || (Z.of_nat (String.length q) <? 1) = false.
Proof.
  intros Hq. destruct q as [|a q]; [done|]. simpl truthy. simpl negb.
  apply Z.ltb_ge. simpl String.length. lia.
Qed.

Lemma search_found (req : query) (cities : list loc) (h : heap) :
  slug (js_or (param req "q") (VStr "")) <> "" ->
  search req cities h
  = bind (map_M without_excluded
            (slice (offset (paginator_offset req))
               (offset (paginator_offset req) + limit (paginator_offset req))
               (List.filter (fun item =>
                  if truthy (VNum (js_mul (VNum (Fin 1)) (param req "has_neighborhoods")))
                     && negb (truthy (get (deref h item) "neighborhoods"))
                  then false
                  else fuzzy_test (slug (js_or (param req "q") (VStr "")))
                         (slug (js_or (get (deref h item) "name") (VStr "")))) cities)))
      json_list h.
Proof.
  intros Hq. unfold search. by rewrite (search_guard_nonempty _ Hq).
Qed.

(** X3: search turns a request down exactly when the slug of its [q]
    is empty; it then answers with the validation error, sends no
    city and leaves the heap as it is. *)
Theorem search_rejects_empty_slug (req : query) (cities : list loc) (h : heap) :
  (slug (js_or (param req "q") (VStr "")) = "" ->
   search req cities h
   = (ValidationError {[ "error" := VStr "'q' parameter must not be empty." ]}, h))
  /\ (slug (js_or (param req "q") (VStr "")) <> "" ->
      exists sent, (search req cities h).1 = Send 200 (BList sent)).
Proof.
  unfold search. split.
  - intros ->. done.
  - intros Hq. fold (search req cities h). rewrite (search_found _ _ _ Hq).
    unfold bind, read_heap, json_list, ret.
    match goal with |- context [map_M ?f ?l h] => destruct (map_M f l h) as [sent h'] end.
    by eexists.
Qed.

(** X4: on a collection whose references are stored, a search with a
    slug that is not empty answers 200 with stored records, in the
    order of the collection, each without the excluded properties:
    every one has a name whose slug matches the pattern, and has
    neighborhoods when that is asked for. *)
Theorem search_sends_matching_stored_records (req : query) (cities : list loc) (h : heap) :
  Forall (fun c => c ∈ dom h) cities ->
  slug (js_or (param req "q") (VStr "")) <> "" ->
  exists page : list loc,
    page `sublist_of` cities
    /\ Forall (fun c =>
                fuzzy_test (slug (js_or (param req "q") (VStr "")))
                  (slug (js_or (get (deref h c) "name") (VStr ""))) = true
                /\ (truthy (VNum (js_mul (VNum (Fin 1)) (param req "has_neighborhoods"))) = true ->
                    truthy (get (deref h c) "neighborhoods") = true)) page
    /\ (search req cities h).1
       = Send 200 (BList (map (fun c => without_keys INDEX_EXCLUDE (deref h c)) page)).
Proof.
  intros Hwf Hq. rewrite (search_found _ _ _ Hq).
  set (flag := truthy (VNum (js_mul (VNum (Fin 1)) (param req "has_neighborhoods")))).
  match goal with
  | |- context [slice ?a ?b (List.filter ?f cities)] =>
      exists (slice a b (List.filter f cities));
      assert (slice a b (List.filter f cities) `sublist_of` List.filter f cities)
        as Hpage by apply slice_sublist;
      pose proof (List_filter_sublist f cities) as Hfilter;
      assert (Forall (fun c => f c = true) (List.filter f cities)) as Hf
        by (apply Forall_forall; intros c Hc%list_elem_of_In; by apply filter_In in Hc as [_ ?])
  end.
  split; [by etrans|]. split.
  - eapply sublist_Forall in Hf; [|exact Hpage].
    eapply Forall_impl; [exact Hf|]. intros c Hc. cbv beta in Hc.
    destruct flag, (truthy (get (deref h c) "neighborhoods")); simpl in Hc;
      by (split || discriminate).
  - apply (respond_clone_without INDEX_EXCLUDE).
    eapply sublist_Forall; [|exact Hwf]. by etrans.
Qed.

End ListHandlers.

Lemma sample_cities_stored : Forall (fun c => c ∈ dom Sample.store) Sample.cities.
Proof. repeat constructor; apply elem_of_dom; by eexists. Qed.

Lemma index_sends_page_of_stored_records_witness :
  Forall (fun c => c ∈ dom Sample.store) Sample.cities
  /\ 0 <= City.offset (City.paginator_offset (Helpers := Sample.helpers) ∅)
  /\ 0 <= City.limit (City.paginator_offset (Helpers := Sample.helpers) ∅)
  /\ (City.index (host := Node.node) (helpers := Sample.helpers) ∅ Sample.cities Sample.store).1
     = City.Send 200
         (City.BList
            (map (fun c => City.without_keys City.INDEX_EXCLUDE (City.deref Sample.store c))
               (take 50 (drop 0 Sample.cities)))).
Proof.
  split; [exact sample_cities_stored|]. split; [done|]. split; [done|].
  exact (index_sends_page_of_stored_records (host := Node.node) (helpers := Sample.helpers)
           ∅ Sample.cities Sample.store sample_cities_stored
           ltac:(done) ltac:(done)).
Defined.

Lemma search_sends_matching_stored_records_witness :
  Forall (fun c => c ∈ dom Sample.store) Sample.cities
  /\ City.slug (Helpers := Sample.helpers)
       (JS.js_or (City.param {[ "q" := "R1" ]} "q") (JS.VStr "")) <> ""
  /\ exists page : list City.loc,
       page `sublist_of` Sample.cities
       /\ (City.search (host := Node.node) (helpers := Sample.helpers)
             {[ "q" := "R1" ]} Sample.cities Sample.store).1
          = City.Send 200
              (City.BList
                 (map (fun c => City.without_keys City.INDEX_EXCLUDE (City.deref Sample.store c))
                    page)).
Proof.
  assert (City.slug (Helpers := Sample.helpers)
            (JS.js_or (City.param {[ "q" := "R1" ]} "q") (JS.VStr "")) <> "") as Hq
    by discriminate.
  split; [exact sample_cities_stored|]. split; [exact Hq|].
  destruct (search_sends_matching_stored_records (host := Node.node) (helpers := Sample.helpers)
              {[ "q" := "R1" ]} Sample.cities Sample.store sample_cities_stored Hq)
    as (page & Hsub & _ & Hsent).
  exists page. by split.
Defined.

(** ** show *)

Section ShowProperties.
Import JS City.
Context {collection : Collection}.

(** X5: show answers 404 exactly when the collection finds no city
    of that name; unless the request asks for sync in development it
    never asks for statistics, leaves the heap as it is and answers
    200 with the stored record in full, months, neighborhoods and
    deciles included. *)
Theorem show_stored_record_or_404 (env name : value) (req : query) (cities : list loc)
    (getStats : loc -> M (outcome obj)) (h : heap) :
  ((show env name req cities getStats h).1.2 = HandleError 404 (VStr "Not found")
   <-> collection_get cities h name = None)
  /\ (collection_get cities h name = None ->
      show env name req cities getStats h = (([], HandleError 404 (VStr "Not found")), h))
  /\ (truthy (param req "sync") && is_development env = false ->
      forall city, collection_get cities h name = Some city ->
        show env name req cities getStats h
        = (([], Send 200 (BObject (deref h city))), h)).
Proof.
  unfold show, bind, read_heap, ret.
  destruct (collection_get cities h name) as [city|] eqn:Hget.
  - split; [|split; [done|]].
    + split; [|done]. destruct (truthy (param req "sync") && is_development env); [|done].
      by destruct (getStats city h) as [[err|stats] h1].
    + intros ->. by intros ? [= <-].
  - split; [done|]. split; [done|]. by intros _ ? [=].
Qed.

(** X6: in development with sync, when the statistics of the found
    city resolve, show answers 200 with a copy of the record in which
    every property of the statistics replaces the stored one and every
    other property is as stored; the statistics were asked for that
    city only, and every object of the heap is afterwards what the
    statistics call left. When they are rejected the answer is 500
    with the error. *)
Theorem show_sync_merges_statistics_on_a_clone (env name : value) (req : query)
    (cities : list loc) (getStats : loc -> M (outcome obj)) (h : heap) (city : loc) :
  collection_get cities h name = Some city ->
  truthy (param req "sync") = true ->
  is_development env = true ->
  (forall stats h1, getStats city h = (Resolved stats, h1) ->
     exists sent,
       (show env name req cities getStats h).1 = ([city], Send 200 (BObject sent))
       /\ (forall k, sent !! k
                     = match stats !! k with
                       | Some v => Some v
                       | None => deref h1 city !! k
                       end)
       /\ h1 ⊆ (show env name req cities getStats h).2)
  /\ (forall err h1, getStats city h = (Rejected err, h1) ->
        show env name req cities getStats h = (([city], HandleError 500 err), h1)).
Proof.
  intros Hget Hsync Hdev. unfold show, bind, read_heap, ret.
  rewrite Hget, Hsync, Hdev. simpl. split.
  - intros stats h1 ->. unfold cloneDeep, extend_in_place. simpl.
    rewrite alter_insert_eq. eexists. split; [reflexivity|]. split.
    + intros k. unfold deref at 1. rewrite lookup_insert_eq. simpl.
      unfold extend. rewrite lookup_union.
      destruct (stats !! k), (deref h1 city !! k); done.
    + apply insert_subseteq, not_elem_of_dom, is_fresh.
  - by intros err h1 ->.
Qed.

End ShowProperties.

(** ** ranking keeps the order of the collection among equals *)

Section Stability.
Import JS City.

Lemma num_strict_eq_sym (a b : number) : num_strict_eq a b = num_strict_eq b a.
Proof.
  destruct a, b; simpl; try done.
  destruct (Qeq_bool q q0) eqn:E1, (Qeq_bool q0 q) eqn:E2; try done.
  - apply Qeq_bool_iff in E1. apply not_true_iff_false in E2.
    destruct E2. apply Qeq_bool_iff. by symmetry.
  - apply Qeq_bool_iff in E2. apply not_true_iff_false in E1.
    destruct E1. apply Qeq_bool_iff. by symmetry.
Qed.

Lemma num_strict_eq_trans (a b c : number) :
  num_strict_eq a b = true -> num_strict_eq b c = true -> num_strict_eq a c = true.
Proof.
  destruct a, b, c; simpl; try done.
  rewrite !Qeq_bool_iff. intros -> ->. reflexivity.
Qed.

Lemma compareEntries_equal_criteria {A} (x y : SortEntry A) :
  num_strict_eq (criteria x) (criteria y) = true ->
  compareEntries x y = Z.of_nat (entry_index x) - Z.of_nat (entry_index y).
Proof.
  intros E. unfold compareEntries, compareAscending. by rewrite E.
Qed.

Context {A : Type}.
Implicit Types (k : number) (x : SortEntry A) (s : list (SortEntry A)).

(** An entry that came earlier than all of [s] goes in front of the
    entries of [s] with its criteria. *)
Lemma array_insert_filter_equal k x s :
  Forall (fun y => (entry_index x < entry_index y)%nat) s ->
  List.filter (fun e => num_strict_eq (criteria e) k) (array_insert compareEntries x s)
  = List.filter (fun e => num_strict_eq (criteria e) k) (x :: s).
Proof.
  induction 1 as [|y s Hy Hs IH]; [done|].
  simpl array_insert. destruct (0 <? compareEntries x y) eqn:E; [|done].
  apply Z.ltb_lt in E.
  change (List.filter ?f (y :: ?l)) with (if f y then y :: List.filter f l else List.filter f l).
  rewrite IH. simpl.
  destruct (num_strict_eq (criteria x) k) eqn:Ex, (num_strict_eq (criteria y) k) eqn:Ey;
    try done.
  rewrite compareEntries_equal_criteria in E; [lia|].
  eapply num_strict_eq_trans; [exact Ex|]. by rewrite num_strict_eq_sym.
Qed.

Lemma array_sort_filter_equal k s :
  StronglySorted (fun x y => (entry_index x < entry_index y)%nat) s ->
  List.filter (fun e => num_strict_eq (criteria e) k) (array_sort compareEntries s)
  = List.filter (fun e => num_strict_eq (criteria e) k) s.
Proof.
  induction 1 as [|x s Hs IH Hx]; [done|].
  simpl array_sort. rewrite array_insert_filter_equal.
  - simpl. by rewrite IH.
  - by rewrite array_sort_Permutation.
Qed.

Lemma imap_entries_by_index (f : A -> number) (l : list A) (n : nat) :
  StronglySorted (fun x y => (entry_index x < entry_index y)%nat)
    (imap (fun i v => mkEntry (f v) (n + i) v) l)
  /\ Forall (fun e => (n <= entry_index e)%nat) (imap (fun i v => mkEntry (f v) (n + i) v) l).
Proof.
  revert n. induction l as [|v l IH]; intros n; simpl; [by split; constructor|].
  destruct (IH (S n)) as [Hs Hall].
  assert (imap ((fun i v => mkEntry (f v) (n + i) v) ∘ S) l
          = imap (fun i v => mkEntry (f v) (S n + i) v) l) as ->.
  { apply imap_ext. intros i x _. simpl. f_equal. lia. }
  split.
  - constructor; [done|]. eapply Forall_impl; [exact Hall|]. simpl. intros e He. lia.
  - constructor; [simpl; lia|]. eapply Forall_impl; [exact Hall|]. simpl. intros e He. lia.
Qed.

Lemma filter_entry_values (f : A -> number) k s :
  Forall (fun e => criteria e = f (entry_value e)) s ->
  List.filter (fun v => num_strict_eq (f v) k) (map entry_value s)
  = map entry_value (List.filter (fun e => num_strict_eq (criteria e) k) s).
Proof.
  induction 1 as [|e s He Hs IH]; [done|]. simpl. rewrite He, IH.
  by destruct (num_strict_eq (f (entry_value e)) k).
Qed.

(** [_.sortBy] is stable: the elements with one criteria come out in
    the order they came in. *)
Lemma sortBy_stable (f : A -> number) (l : list A) k :
  List.filter (fun v => num_strict_eq (f v) k) (sortBy f l)
  = List.filter (fun v => num_strict_eq (f v) k) l.
Proof.
  unfold sortBy.
  assert (imap (fun i v => mkEntry (f v) i v) l
          = imap (fun i v => mkEntry (f v) (0 + i) v) l) as Himap by done.
  rewrite filter_entry_values.
  - rewrite array_sort_filter_equal.
    + rewrite <- (filter_entry_values f).
      * by rewrite imap_entry_value.
      * by apply imap_entry_criteria.
    + rewrite Himap. apply imap_entries_by_index.
  - rewrite array_sort_Permutation. by apply imap_entry_criteria.
Qed.

End Stability.

Section RankingOrder.
Import JS City.
Context {host : Host}.

Lemma num_strict_eq_negated (a b : number) :
  num_strict_eq (num_mul (Fin (-1)) a) (num_mul (Fin (-1)) b) = num_strict_eq a b.
Proof.
  destruct a, b; simpl; try done.
  destruct (Qeq_bool q q0) eqn:E.
  - apply Qeq_bool_iff in E. apply Qeq_bool_iff. by rewrite E.
  - apply not_true_iff_false in E. apply not_true_iff_false. intros E'. apply E.
    apply Qeq_bool_iff in E'. apply Qeq_bool_iff. lra.
Qed.

(** X7: among the ranked records whose indicator has one and the
    same numeric value, ranking keeps the order of the collection. *)
Theorem ranking_keeps_collection_order_among_equals
    (req : query) (cities : list loc) (h : heap) (v : number) :
  exists ranked : list obj,
    (ranking req cities h).1
    = Send 200 (BPairs (map (fun c => (get c "name", get c (chosen_indicator req))) ranked))
    /\ List.filter
         (fun c => num_strict_eq (ToNumber (get c (chosen_indicator req))) v) ranked
       = List.filter
           (fun c => num_strict_eq (ToNumber (get c (chosen_indicator req))) v)
           (List.filter (fun c => truthy (get c "ranked")) (map (deref h) cities)).
Proof.
  eexists. split; [reflexivity|].
  pose proof (sortBy_stable
                (fun c => js_mul (VNum (Fin (-1))) (get c (chosen_indicator req)))
                (List.filter (fun c => truthy (get c "ranked")) (map (deref h) cities))
                (num_mul (Fin (-1)) v)) as Hstable.
  etrans; [|etrans; [exact Hstable|]].
  - apply List.filter_ext. intros c. symmetry. apply num_strict_eq_negated.
  - apply List.filter_ext. intros c. apply num_strict_eq_negated.
Qed.

End RankingOrder.

(** ** geocode: where the place comes from, and what is answered *)

Section GeocodeMore.
Import JS City.
Context {host : Host} {Rows S : Type}.
Implicit Types (w : World Rows S) (s : S) (req : query) (place : obj).
Implicit Types (log : list (call Rows)) (resp : response).

(** One case for each element of a list that is written out. *)
Ltac call_cases :=
  repeat match goal with
         | H : _ ∈ [] |- _ => by apply elem_of_nil in H
         | H : _ ∈ _ :: _ |- _ => apply elem_of_cons in H as [H|H]
         end.

Lemma served_no_request req place log resp :
  served req place log resp -> Forall (fun c => is_request c = false) log.
Proof. destruct 1; repeat constructor. Qed.

Lemma numbers_of_numbers (text : string) :
  Forall (fun v => exists n, v = VNum n /\ num_isNaN n = false) (numbers_of text).
Proof.
  rewrite numbers_of_omap. rewrite Forall_map. apply Forall_forall.
  intros n [piece [_ Hn]]%list_elem_of_omap. simpl in Hn.
  destruct (num_isNaN (StringToNumber (trim piece))) eqn:E; [done|].
  injection Hn as <-. by eexists.
Qed.

Lemma served_center_call req place log resp :
  served req place log resp -> center_calls log = [center_args req place].
Proof. by destruct 1. Qed.

(** X8: a [q] that reads as exactly two numbers is taken as latitude
    and longitude: geocode never asks the geocoder, and calls
    [docs.center] once, with these two numbers. *)
Theorem geocode_coordinates_skip_geocoder w s req :
  truthy (param req "q") = true ->
  length (numbers_of (text_of (param req "q"))) = 2%nat ->
  Forall (fun c => is_request c = false) (run w (geocode req) s).1
  /\ exists lat lng args,
       numbers_of (text_of (param req "q")) = [VNum lat; VNum lng]
       /\ num_isNaN lat = false /\ num_isNaN lng = false
       /\ center_calls (run w (geocode req) s).1 = [args]
       /\ arg_latitude args = VNum (num_mul lat (Fin 1))
       /\ arg_longitude args = VNum (num_mul lng (Fin 1)).
Proof.
  intros Hq Hlen. rewrite (run_geocode_coordinates w s req Hq Hlen).
  pose proof (run_sendCenter w s req
                (place_of_coordinates (valid_radius req)
                   (numbers_of (text_of (param req "q"))))) as Hs.
  split; [by eapply served_no_request|].
  pose proof (numbers_of_numbers (text_of (param req "q"))) as Hnum.
  destruct (numbers_of (text_of (param req "q"))) as [|a [|b [|c l]]] eqn:E; try done.
  apply Forall_cons in Hnum as [(lat & -> & Hlat) Hnum].
  apply Forall_cons in Hnum as [(lng & -> & Hlng) _].
  exists lat, lng, (center_args req (place_of_coordinates (valid_radius req) [VNum lat; VNum lng])).
  repeat split; try done. by eapply served_center_call.
Qed.

(** X9: any other [q] is given to the geocoder as it is, and nothing
    else is asked of it. When the request fails, or the body has no
    truthy [length] and [push] (an empty array, a text, a number), the
    answer is 404 and the doc model is not called. When the request
    does not fail and the body is [undefined] or [null], or the first
    of the places is, the callback throws: nothing is sent and the doc
    model is not called. Otherwise [docs.center] is called once, with
    the latitude and longitude of the first place. *)
Theorem geocode_text_asks_geocoder w s req :
  truthy (param req "q") = true ->
  length (numbers_of (text_of (param req "q"))) <> 2%nat ->
  exists err body log,
    (request w (text_of (param req "q")) s).1 = mkReply err body
    /\ (run w (geocode req) s).1
       = CallRequest (text_of (param req "q")) (mkReply err body) :: log
    /\ Forall (fun c => is_request c = false) log
    /\ (truthy err = true ->
        log = [] /\ (run w (geocode req) s).2 = HandleError 404 (VStr "Not found"))
    /\ (truthy err = false -> nullish body = true ->
        log = [] /\ (run w (geocode req) s).2 = Thrown type_error)
    /\ (truthy err = false -> nullish body = false ->
        length_truthy body && push_truthy body = false ->
        log = [] /\ (run w (geocode req) s).2 = HandleError 404 (VStr "Not found"))
    /\ (truthy err = false -> nullish body = false ->
        length_truthy body && push_truthy body = true ->
        nullish (first_of body) = true ->
        log = [] /\ (run w (geocode req) s).2 = Thrown type_error)
    /\ (truthy err = false -> nullish body = false ->
        length_truthy body && push_truthy body = true ->
        nullish (first_of body) = false ->
        exists args,
          center_calls log = [args]
          /\ arg_latitude args = VNum (js_mul (field (first_of body) "lat") (VNum (Fin 1)))
          /\ arg_longitude args = VNum (js_mul (field (first_of body) "lon") (VNum (Fin 1))))
    /\ (truthy err = false -> body = VArr [] ->
        log = [] /\ (run w (geocode req) s).2 = HandleError 404 (VStr "Not found"))
    /\ (forall first rest,
          truthy err = false -> body = VArr (first :: rest) -> nullish first = false ->
          exists args,
            center_calls log = [args]
            /\ arg_latitude args = VNum (js_mul (field first "lat") (VNum (Fin 1)))
            /\ arg_longitude args = VNum (js_mul (field first "lon") (VNum (Fin 1)))).
Proof.
  intros Hq Hlen. rewrite (run_geocode_text w s req Hq Hlen).
  destruct (request w (text_of (param req "q")) s) as [[err body] s1]. cbn [fst snd].
  unfold reply_err, reply_body.
  pose proof (run_sendCenter w s1 req
                (place_of_answer (valid_radius req) (first_of body))) as Hs.
  exists err, body.
  destruct (truthy err) eqn:Herr.
  { exists []. repeat split; done. }
  destruct (nullish body) eqn:Hbody.
  { exists []. repeat split; try done; intros; by simplify_eq. }
  destruct (length_truthy body && push_truthy body) eqn:Hguard.
  2:{ exists []. repeat split; try done; intros; by simplify_eq. }
  destruct (nullish (first_of body)) eqn:Hfirst.
  { exists []. repeat split; try done; intros; simplify_eq; simpl in Hfirst; congruence. }
  eexists. split; [done|]. split; [reflexivity|].
  split; [by eapply served_no_request|].
  repeat split; try done; intros; simplify_eq;
    eexists; (split; [by eapply served_center_call|done]).
Qed.

(** X10: geocode answers 500 exactly when the last call it made was
    rejected, and then with the error of that call; no call is made
    after a rejected one. *)
Theorem geocode_failure_is_last_call w s req :
  (forall err,
     (run w (geocode req) s).2 = HandleError 500 err
     <-> last (run w (geocode req) s).1 ≫= rejection = Some err)
  /\ Forall (fun c => rejection c = None) (removelast (run w (geocode req) s).1).
Proof.
  assert (forall place log resp,
            served req place log resp ->
            (forall err, resp = HandleError 500 err <-> last log ≫= rejection = Some err)
            /\ Forall (fun c => rejection c = None) (removelast log)
            /\ log <> []) as Hserved.
  { intros place log resp Hs. destruct Hs; simpl; (split; [|split; [by repeat constructor|done]]);
      intros err'; split; intros [=]; by subst. }
  destruct (run_geocode w s req)
    as [Hq|log resp Hq Hs|reply Hq Hnone Hkeeps|reply Hq Hthrows
        |reply log resp Hq Hplaces Hkeeps Hs].
  - split; [|constructor]. intros err; split; intros [=].
  - destruct (Hserved _ _ _ Hs) as (H1 & H2 & _). by split.
  - split; [|constructor]. intros err; split; intros [=].
  - split; [|constructor]. intros err; split; intros [=].
  - destruct (Hserved _ _ _ Hs) as (H1 & H2 & Hne). split.
    + intros err. rewrite H1. by destruct log.
    + destruct log as [|c log]; [done|]. by constructor.
Qed.

(** X11: in an answer with status 200 the deciles are those of
    [docs.deciles], every other property that [docs.getStats] returned
    has the value it returned, and the radius is the one used for the
    selection unless the statistics bring their own. *)
Theorem geocode_answer_merges_statistics w s req (b : obj) :
  (run w (geocode req) s).2 = Send 200 (BObject b) ->
  exists rows stats deciles,
    CallGetStats rows (VNum (valid_radius req)) (VBool true) (Resolved stats)
      ∈ (run w (geocode req) s).1
    /\ CallDeciles rows (Resolved deciles) ∈ (run w (geocode req) s).1
    /\ b !! "deciles" = Some deciles
    /\ (forall k v, k <> "deciles" -> stats !! k = Some v -> b !! k = Some v)
    /\ (stats !! "radius" = None -> b !! "radius" = Some (VNum (valid_radius req))).
Proof.
  assert (forall place log resp,
            served req place log resp ->
            place !! "radius" = Some (VNum (valid_radius req)) ->
            resp = Send 200 (BObject b) ->
            exists rows stats deciles,
              CallGetStats rows (VNum (valid_radius req)) (VBool true) (Resolved stats) ∈ log
              /\ CallDeciles rows (Resolved deciles) ∈ log
              /\ b !! "deciles" = Some deciles
              /\ (forall k v, k <> "deciles" -> stats !! k = Some v -> b !! k = Some v)
              /\ (stats !! "radius" = None -> b !! "radius" = Some (VNum (valid_radius req))))
    as Hserved.
  { intros place log resp Hs Hradius Hb. destruct Hs; try done.
    injection Hb as <-. exists rows, stats, deciles.
    split; [set_solver|]. split; [set_solver|].
    split; [apply lookup_insert_eq|]. split.
    - intros k v Hk Hv. rewrite lookup_insert_ne by done.
      unfold extend. by apply lookup_union_Some_l.
    - intros Hnone. rewrite lookup_insert_ne by done.
      unfold extend. rewrite lookup_union_r by done. exact Hradius. }
  intros Hresp.
  destruct (run_geocode w s req)
    as [Hq|log resp Hq Hs|reply Hq Hnone Hkeeps|reply Hq Hthrows
        |reply log resp Hq Hplaces Hkeeps Hs];
    try done.
  - by apply (Hserved _ _ _ Hs).
  - destruct (Hserved _ _ _ Hs) as (rows & stats & deciles & H1 & H2 & H3); [done..|].
    exists rows, stats, deciles. split; [by right|]. split; [by right|done].
Qed.

Lemma center_calls_args w s req :
  Forall (fun args =>
            arg_radius args = VNum (valid_radius req)
            /\ arg_minLivingSpace args = valid_minLivingSpace req
            /\ arg_maxLivingSpace args = valid_maxLivingSpace req
            /\ arg_noRooms args = valid_noRooms req
            /\ arg_limit args = param req "limit")
    (center_calls (run w (geocode req) s).1).
Proof.
  apply Forall_forall. intros args Hin.
  by apply (geocoded_center_args _ _ _ (run_geocode w s req)).
Qed.

Lemma num_le_not_lt (a b : number) : num_le a b -> num_lt b a = false.
Proof.
  destruct a, b; simpl; try done.
  intros Hle. apply not_true_iff_false. rewrite Qltb_lt. lra.
Qed.

Lemma omap_length_le {A B} (f : A -> option B) (l : list A) :
  (length (omap f l) <= length l)%nat.
Proof.
  induction l as [|x l IH]; [done|].
  change (omap f (x :: l)) with (match f x with Some y => y :: omap f l | None => omap f l end).
  destruct (f x); simpl; lia.
Qed.

Lemma num_le_not_NaN (a b : number) : num_le a b -> num_isNaN a = false.
Proof. by destruct a, b. Qed.

(** X12: the room filter given to [docs.center] is null exactly when
    [no_rooms] is absent or empty; otherwise it is an array of numbers
    none of which is NaN, with at most one number for each piece of the
    text, and the empty array, not null, when no piece reads as a
    number. *)
Theorem geocode_room_filter_is_null_or_numbers w s req :
  Forall (fun args =>
            (arg_noRooms args = VNull
             <-> req !! "no_rooms" = None \/ req !! "no_rooms" = Some "")
            /\ (forall text, req !! "no_rooms" = Some text -> text <> "" ->
                  exists rooms,
                    arg_noRooms args = VArr (map VNum rooms)
                    /\ Forall (fun n => num_isNaN n = false) rooms
                    /\ (length rooms <= length (split_comma text))%nat
                    /\ (Forall (fun piece => num_isNaN (StringToNumber (trim piece)) = true)
                          (split_comma text) -> rooms = [])))
    (center_calls (run w (geocode req) s).1).
Proof.
  eapply Forall_impl; [apply center_calls_args|].
  intros args (_ & _ & _ & -> & _). unfold valid_noRooms, param. split.
  - destruct (req !! "no_rooms") as [text|]; simpl; [|by split; [left|]].
    destruct (String.eqb_spec text "") as [->|Hne]; simpl.
    + by split; [right|].
    + split; [done|]. intros [?|[= ?]]; done.
  - intros text -> Htext. simpl. destruct (String.eqb_spec text ""); [done|]. simpl.
    rewrite numbers_of_omap. eexists. split; [reflexivity|]. split; [|split].
    + apply Forall_forall. intros m [piece [_ Hm]]%list_elem_of_omap. simpl in Hm.
      destruct (num_isNaN (StringToNumber (trim piece))) eqn:E; [done|]. by injection Hm as <-.
    + apply omap_length_le.
    + induction 1 as [|piece pieces Hp _ IH]; simpl; [done|]. by rewrite Hp.
Qed.

(** X13: a radius that reads as a number of at most 20 is used as it
    is, below zero too: there is no lower bound; and the radius given
    to [docs.getStats] is the one given to [docs.center]. A request for
    the radius -5 selects with -5. *)
Theorem geocode_radius_has_no_floor w s req :
  Forall (fun args =>
            forall text, req !! "radius" = Some text -> text <> "" ->
              num_le (StringToNumber text) (Fin 20) ->
              arg_radius args = VNum (StringToNumber text))
    (center_calls (run w (geocode req) s).1)
  /\ (forall rows radius flag res,
        CallGetStats rows radius flag res ∈ (run w (geocode req) s).1 ->
        Forall (fun args => arg_radius args = radius) (center_calls (run w (geocode req) s).1))
  /\ map arg_radius
       (center_calls
          (run Sample.world (geocode (host := Node.node) Sample.negative_radius_request) tt).1)
     = [VNum (Fin (-5))].
Proof.
  split; [|split].
  - eapply Forall_impl; [apply center_calls_args|].
    intros args (-> & _) text Htext Hne Hle. f_equal.
    unfold valid_radius, js_or, param. rewrite Htext. simpl truthy.
    destruct (String.eqb_spec text ""); [done|]. simpl negb. cbv iota.
    unfold isNaN, Math_min. simpl ToNumber.
    rewrite (num_le_not_NaN _ _ Hle). simpl ToNumber.
    unfold num_min. rewrite (num_le_not_lt _ _ Hle).
    by destruct (StringToNumber text).
  - intros rows radius flag res Hin.
    eapply Forall_impl; [apply center_calls_args|]. intros args (-> & _).
    destruct (run_geocode w s req)
      as [Hq|log resp Hq Hs|reply Hq Hnone Hkeeps|reply Hq Hthrows
          |reply log resp Hq Hplaces Hkeeps Hs].
    + by apply elem_of_nil in Hin.
    + destruct Hs; call_cases; by simplify_eq.
    + call_cases; by simplify_eq.
    + call_cases; by simplify_eq.
    + apply elem_of_cons in Hin as [?|Hin]; [done|].
      destruct Hs; call_cases; by simplify_eq.
  - by vm_compute.
Qed.

(** X14: the bounds of the living space reach [docs.center] as the
    text of the query whenever that text reads as a number, whatever
    the number, and as 0 and 200 when it does not; the limit is handed
    over as it came. The bounds 300 and 500 with the limit 10 are given
    as they are. *)
Theorem geocode_bounds_are_not_clamped w s req :
  Forall (fun args =>
            (forall text, req !! "min_living_space" = Some text -> text <> "" ->
               arg_minLivingSpace args
               = if num_isNaN (StringToNumber text) then VNum (Fin 0) else VStr text)
            /\ (forall text, req !! "max_living_space" = Some text -> text <> "" ->
                  arg_maxLivingSpace args
                  = if num_isNaN (StringToNumber text) then VNum (Fin 200) else VStr text)
            /\ arg_limit args = param req "limit")
    (center_calls (run w (geocode req) s).1)
  /\ map (fun args => (arg_minLivingSpace args, arg_maxLivingSpace args, arg_limit args))
       (center_calls
          (run Sample.world (geocode (host := Node.node) Sample.wide_bounds_request) tt).1)
     = [(VStr "300", VStr "500", VStr "10")].
Proof.
  split; [|by vm_compute].
  eapply Forall_impl; [apply center_calls_args|].
  intros args (_ & -> & -> & _ & ->). split; [|split; [|done]].
  - intros text Htext Hne. unfold valid_minLivingSpace, js_or, param. rewrite Htext.
    simpl truthy. destruct (String.eqb_spec text ""); [done|]. simpl negb. cbv iota.
    unfold isNaN. simpl ToNumber. by destruct (num_isNaN (StringToNumber text)).
  - intros text Htext Hne. unfold valid_maxLivingSpace, js_or, param. rewrite Htext.
    simpl truthy. destruct (String.eqb_spec text ""); [done|]. simpl negb. cbv iota.
    unfold isNaN. simpl ToNumber. by destruct (num_isNaN (StringToNumber text)).
Qed.

End GeocodeMore.

Lemma geocode_coordinates_skip_geocoder_witness :
  JS.truthy (City.param Sample.rooms_request "q") = true
  /\ length (City.numbers_of (host := Node.node)
               (City.text_of (City.param Sample.rooms_request "q"))) = 2%nat
  /\ Forall (fun c => City.is_request c = false)
       (City.run Sample.world (City.geocode (host := Node.node) Sample.rooms_request) tt).1.
Proof.
  split; [reflexivity|]. split; [reflexivity|].
  exact (proj1 (geocode_coordinates_skip_geocoder (host := Node.node)
                  Sample.world tt Sample.rooms_request eq_refl eq_refl)).
Defined.

Lemma geocode_text_asks_geocoder_witness :
  JS.truthy (City.param Sample.text_request "q") = true
  /\ length (City.numbers_of (host := Node.node)
               (City.text_of (City.param Sample.text_request "q"))) <> 2%nat
  /\ exists err body log,
       (City.run Sample.world_with_geocoder
          (City.geocode (host := Node.node) Sample.text_request) tt).1
       = City.CallRequest (City.text_of (City.param Sample.text_request "q"))
           (City.mkReply err body) :: log.
Proof.
  assert (length (City.numbers_of (host := Node.node)
                    (City.text_of (City.param Sample.text_request "q"))) <> 2%nat) as Hlen
    by discriminate.
  split; [reflexivity|]. split; [exact Hlen|].
  destruct (geocode_text_asks_geocoder (host := Node.node)
              Sample.world_with_geocoder tt Sample.text_request eq_refl Hlen)
    as (err & body & log & _ & Hrun & _).
  by exists err, body, log.
Defined.

(** An answer of the geocoder without a body: the callback throws,
    nothing is sent and the doc model is not called; a failed request
    is answered 404. *)
Lemma geocode_without_body_throws :
  City.run Sample.world_without_body (City.geocode (host := Node.node) Sample.text_request) tt
  = ([City.CallRequest "Berlin" (City.mkReply JS.VNull JS.VUndefined)],
     City.Thrown City.type_error)
  /\ City.run Sample.world (City.geocode (host := Node.node) Sample.text_request) tt
     = ([City.CallRequest "Berlin" (City.mkReply (JS.VStr "ENOTFOUND") JS.VUndefined)],
        City.HandleError 404 (JS.VStr "Not found")).
Proof. split; reflexivity. Qed.

Lemma sample_rooms_answer :
  (City.run Sample.world (City.geocode (host := Node.node) Sample.rooms_request) tt).2
  = City.Send 200 (City.BObject Sample.rooms_answer).
Proof. reflexivity. Qed.

Lemma geocode_answer_merges_statistics_witness :
  (City.run Sample.world (City.geocode (host := Node.node) Sample.rooms_request) tt).2
  = City.Send 200 (City.BObject Sample.rooms_answer)
  /\ exists (rows : unit) stats deciles,
       City.CallGetStats rows
         (JS.VNum (City.valid_radius (host := Node.node) Sample.rooms_request))
         (JS.VBool true) (City.Resolved stats)
         ∈ (City.run Sample.world (City.geocode (host := Node.node) Sample.rooms_request) tt).1
       /\ City.CallDeciles rows (City.Resolved deciles)
          ∈ (City.run Sample.world (City.geocode (host := Node.node) Sample.rooms_request) tt).1
       /\ Sample.rooms_answer !! "deciles" = Some deciles.
Proof.
  split; [exact sample_rooms_answer|].
  destruct (geocode_answer_merges_statistics (host := Node.node)
              Sample.world tt Sample.rooms_request Sample.rooms_answer sample_rooms_answer)
    as (rows & stats & deciles & H1 & H2 & H3 & _).
  by exists rows, stats, deciles.
Defined.

Lemma sample_show_finds_R1 :
  City.collection_get (Collection := Sample.collection)
    Sample.cities Sample.store (JS.VStr "R1") = Some 3%positive.
Proof. reflexivity. Qed.

Lemma show_sync_merges_statistics_on_a_clone_witness :
  City.collection_get (Collection := Sample.collection)
    Sample.cities Sample.store (JS.VStr "R1") = Some 3%positive
  /\ JS.truthy (City.param {[ "sync" := "1" ]} "sync") = true
  /\ City.is_development (JS.VStr "development") = true
  /\ (forall stats h1,
        Sample.total_of_five 3%positive Sample.store = (City.Resolved stats, h1) ->
        exists sent,
          (City.show (collection := Sample.collection) (JS.VStr "development") (JS.VStr "R1")
             {[ "sync" := "1" ]} Sample.cities Sample.total_of_five Sample.store).1
          = ([3%positive], City.Send 200 (City.BObject sent))
          /\ (forall k, sent !! k
                        = match stats !! k with
                          | Some v => Some v
                          | None => City.deref h1 3%positive !! k
                          end)
          /\ h1 ⊆ (City.show (collection := Sample.collection) (JS.VStr "development")
                     (JS.VStr "R1") {[ "sync" := "1" ]} Sample.cities Sample.total_of_five
                     Sample.store).2).
Proof.
  split; [exact sample_show_finds_R1|]. split; [reflexivity|]. split; [reflexivity|].
  exact (proj1 (show_sync_merges_statistics_on_a_clone (collection := Sample.collection)
                  (JS.VStr "development") (JS.VStr "R1") {[ "sync" := "1" ]}
                  Sample.cities Sample.total_of_five Sample.store 3%positive
                  sample_show_finds_R1 eq_refl eq_refl)).
Defined.

Section Legacy.
Import JS City.
Context {Rows S : Type}.
Implicit Types (w : World Rows S) (s : S) (req : query).

(** X15: the earlier geocode does not read the request: whatever is
    asked, it calls [docs.center] once, for the same point and radius,
    never answers 404, never asks for deciles, and answers 200 with
    what [docs.getStats] returned for the rows, as it is. *)
Theorem legacy_geocode_ignores_request w s req :
  (forall req', run w (Legacy.geocode req') s = run w (Legacy.geocode req) s)
  /\ center_calls (run w (Legacy.geocode req) s).1 = [Legacy.fixed_center]
  /\ (forall err, (run w (Legacy.geocode req) s).2 <> HandleError 404 err)
  /\ Forall (fun c => match c with CallDeciles _ _ => False | _ => True end)
       (run w (Legacy.geocode req) s).1
  /\ (forall b, (run w (Legacy.geocode req) s).2 = Send 200 (BObject b) ->
        exists rows,
          (run w (Legacy.geocode req) s).1
          = [CallCenter Legacy.fixed_center (Resolved rows);
             CallGetStats rows VUndefined VUndefined (Resolved b)]).
Proof.
  split; [done|]. unfold Legacy.geocode. simpl.
  destruct (docs_center w Legacy.fixed_center s) as [[err|rows] s1]; simpl.
  { repeat split; try done. by repeat constructor. }
  destruct (docs_getStats w rows VUndefined VUndefined s1) as [[err|stats] s2]; simpl.
  { repeat split; try done. by repeat constructor. }
  repeat split; try done; [by repeat constructor|].
  intros b [= <-]. by exists rows.
Qed.

End Legacy.

Section LegacyIndex.
Import JS City.
Context {helpers : Helpers}.

(** X16: on a collection whose references are stored, and a page that
    starts at or after 0 with a size of 0 or more, the earlier index
    answers 200 with the stored records of that page without months
    and neighborhoods; the deciles are sent as stored, and every
    object of the heap is afterwards what it was. *)
Theorem legacy_index_keeps_deciles (req : query) (cities : list loc) (h : heap) :
  Forall (fun c => c ∈ dom h) cities ->
  0 <= offset (paginator_offset req) ->
  0 <= limit (paginator_offset req) ->
  (Legacy.index req cities h).1
  = Send 200
      (BList
         (map (fun c => without_keys Legacy.INDEX_EXCLUDE (deref h c))
            (take (Z.to_nat (limit (paginator_offset req)))
               (drop (Z.to_nat (offset (paginator_offset req))) cities))))
  /\ (forall o, without_keys Legacy.INDEX_EXCLUDE o !! "deciles" = o !! "deciles"
                /\ without_keys Legacy.INDEX_EXCLUDE o !! "months" = None
                /\ without_keys Legacy.INDEX_EXCLUDE o !! "neighborhoods" = None)
  /\ h ⊆ (Legacy.index req cities h).2.
Proof.
  intros Hwf Hoff Hlim. unfold Legacy.index. rewrite slice_page by done.
  assert (Forall (fun c => c ∈ dom h)
            (take (Z.to_nat (limit (paginator_offset req)))
               (drop (Z.to_nat (offset (paginator_offset req))) cities))) as Hpage.
  { eapply sublist_Forall; [|exact Hwf]. etrans; [apply sublist_take|apply sublist_drop]. }
  split; [by apply respond_clone_without|]. split.
  - intros o. rewrite !without_keys_lookup. repeat split; by case_decide; set_solver.
  - destruct (map_M_clone_without Legacy.INDEX_EXCLUDE _ h Hpage) as [Hsub _].
    unfold bind. by destruct (map_M _ _ h) as [sent h'].
Qed.

End LegacyIndex.

Lemma legacy_index_keeps_deciles_witness :
  Forall (fun c => c ∈ dom Sample.store) Sample.cities
  /\ 0 <= City.offset (City.paginator_offset (Helpers := Sample.helpers) ∅)
  /\ 0 <= City.limit (City.paginator_offset (Helpers := Sample.helpers) ∅)
  /\ Sample.store ⊆ (Legacy.index (helpers := Sample.helpers) ∅ Sample.cities Sample.store).2.
Proof.
  split; [exact sample_cities_stored|]. split; [done|]. split; [done|].
  exact (proj2 (proj2 (legacy_index_keeps_deciles (helpers := Sample.helpers)
                         ∅ Sample.cities Sample.store sample_cities_stored
                         ltac:(done) ltac:(done)))).
Defined.
